(** * mirobody finance tools: Finnhub US-equities service and Tushare A-share
    realtime service

    A shallow embedding of [src/tools/finance/finnhub_service.py] and
    [src/tools/finance/tushare_realtime_service.py], and the properties of
    the two services.

    Conventions of the embedding.
    - A Python dict whose order is never observed (the metadata of a
      response envelope, the per-category data, the merged report, a market
      record) is a [gmap string _]; the name-to-code map, whose values are
      joined in insertion order, is an association list.
    - An exception is a value of [exn]; a function that can raise returns
      [Result].  The Tushare service threads the cache directory and the
      trace of upstream calls through a state-and-error monad [M], in which
      [try ... except Exception] is [try_except].
    - The upstream providers are given as the outcome of each call:
      it raises, or returns a value or a frame.  A frame is the list of its
      rows; the directory frame has the three columns the service asks for.
      A frame built of a cache file that holds something else is given by
      what the two look-ups make of it ([ForeignFrame]).
    - Numbers (Python int and float) are rationals; [time.time()] is a
      rational number of seconds, fixed during one request.
    - A [str] is the string of its UTF-8 bytes: equality, order,
      concatenation, [split(',')] and [',' in s] are those of the bytes.
      What Python's Unicode tables decide ([upper], the whitespace of
      [strip], the decimal digits of [\d] and [int]) is a parameter,
      [StrMethods], known only by what holds for every version of the
      tables: on ASCII text they are the ASCII operations.
    - [async]/[await] is sequential composition: no operation here runs
      two awaits at once. *)

From Stdlib Require Import ZArith QArith Lia List String Ascii Bool.
From Stdlib Require Import Sorting.Permutation.
From stdpp Require Import base option list gmap strings sorting.

Set Warnings "-register-all".

Local Open Scope Z_scope.

(* ===================================================================== *)
(** ** Python runtime: exceptions, values, strings                        *)
(* ===================================================================== *)

Module Py.

(** The exception classes the two services meet, each with its message
    [str(e)]; the message of a [KeyError] is the [repr] of the missing key
    (['name'], quotes included). *)
Inductive exn : Type :=
| AttributeError (msg : string)
| ValueError (msg : string)
| KeyError (msg : string)
| TypeError (msg : string)
| UpstreamError (msg : string).

(** [str(e)] *)
Definition str_exn (e : exn) : string :=
  match e with
  | AttributeError m | ValueError m | KeyError m | TypeError m
  | UpstreamError m => m
  end.

Inductive Result (A : Type) : Type :=
| Ok (a : A)
| Raise (e : exn).
Arguments Ok {A} a.
Arguments Raise {A} e.

Definition rbind {A B : Type} (r : Result A) (k : A -> Result B) : Result B :=
  match r with
  | Ok a => k a
  | Raise e => Raise e
  end.

(** Python values as the services build and pass them on. *)
Inductive pyval : Type :=
| PyNone
| PyBool (b : bool)
| PyNum (q : Q)
| PyStr (s : string)
| PyList (l : list pyval)
| PyDict (d : gmap string pyval).

(** Truth value testing: [if x:] / [True if x else False]. *)
Definition truthy (v : pyval) : bool :=
  match v with
  | PyNone => false
  | PyBool b => b
  | PyNum q => negb (Qeq_bool q 0)
  | PyStr s => negb (String.eqb s "")
  | PyList l => match l with [] => false | _ :: _ => true end
  | PyDict d => match map_to_list d with [] => false | _ :: _ => true end
  end.

(** [x is None] *)
Definition is_none (v : pyval) : bool :=
  match v with PyNone => true | _ => false end.

(** [**(meta or {})] spliced after the literal keys of a dict display: the
    later keys win. *)
Definition splice (meta base : gmap string pyval) : gmap string pyval :=
  meta ∪ base.

(** The uniform response wrapper.  A field that is [None] is a key the
    dict does not have. *)
Record Envelope (D : Type) : Type := mkEnvelope {
  success : bool;
  found : option bool;
  data : option D;
  error : option string;
  metadata : option (gmap string pyval)
}.
Arguments mkEnvelope {D} _ _ _ _ _.
Arguments success {D} _.
Arguments found {D} _.
Arguments data {D} _.
Arguments error {D} _.
Arguments metadata {D} _.

(** *** str methods

    On ASCII text the methods are these. *)

Definition is_space (c : ascii) : bool :=
  let n := nat_of_ascii c in
  ((9 <=? n)%nat && (n <=? 13)%nat) || ((28 <=? n)%nat && (n <=? 32)%nat).

Definition upper_char (c : ascii) : ascii :=
  let n := nat_of_ascii c in
  if ((97 <=? n)%nat && (n <=? 122)%nat)%bool then ascii_of_nat (n - 32) else c.

Fixpoint ascii_upper (s : string) : string :=
  match s with
  | EmptyString => EmptyString
  | String c s' => String (upper_char c) (ascii_upper s')
  end.

Fixpoint lstrip (s : string) : string :=
  match s with
  | EmptyString => EmptyString
  | String c s' => if is_space c then lstrip s' else s
  end.

Fixpoint rstrip (s : string) : string :=
  match s with
  | EmptyString => EmptyString
  | String c s' =>
      match rstrip s' with
      | EmptyString => if is_space c then EmptyString else String c EmptyString
      | t => String c t
      end
  end.

Definition ascii_strip (s : string) : string := rstrip (lstrip s).

Definition is_digit (c : ascii) : bool :=
  let n := nat_of_ascii c in ((48 <=? n)%nat && (n <=? 57)%nat)%bool.

Definition digit_val (c : ascii) : Z := Z.of_nat (nat_of_ascii c) - 48.

Definition is_ascii (c : ascii) : bool := (nat_of_ascii c <? 128)%nat.

(** The text has ASCII characters only. *)
Fixpoint ascii_text (s : string) : bool :=
  match s with
  | EmptyString => true
  | String c s' => is_ascii c && ascii_text s'
  end.

(** One ASCII decimal digit at the front of a text: its value and the
    rest. *)
Definition ascii_decimal (s : string) : option (Z * string) :=
  match s with
  | String c rest => if is_digit c then Some (digit_val c, rest) else None
  | EmptyString => None
  end.

(** The methods of [str] that depend on the Unicode tables of the running
    Python: [s.upper()], [s.strip()], and the reading of one character that
    [\d] matches, with its [int] value, off the front of a text.  On ASCII
    text they are the ASCII operations; [strip] returns a slice of its
    argument and changes nothing when applied again. *)
Class StrMethods : Type := {
  upper : string -> string;
  strip : string -> string;
  decimal : string -> option (Z * string);
  upper_ascii_text : forall s, ascii_text s = true -> upper s = ascii_upper s;
  strip_ascii_text : forall s, ascii_text s = true -> strip s = ascii_strip s;
  strip_again : forall s, strip (strip s) = strip s;
  strip_slice : forall s, exists a b, s = a +:+ strip s +:+ b;
  decimal_ascii :
    forall c rest, is_ascii c = true ->
      decimal (String c rest) = ascii_decimal (String c rest);
  decimal_empty : decimal EmptyString = None
}.

(** The methods on ASCII text.  Every [StrMethods] agrees with them there,
    so they serve to evaluate a request whose text is ASCII. *)
Definition ascii_methods : StrMethods.
Proof.
  refine {| upper := ascii_upper; strip := ascii_strip;
            decimal := ascii_decimal |}.
  - reflexivity.
  - reflexivity.
  - assert (Hr : forall s, rstrip (rstrip s) = rstrip s).
    { induction s as [|c s IH]; cbn; [reflexivity|].
      destruct (rstrip s) as [|c' t] eqn:E.
      - destruct (is_space c) eqn:Ec; cbn; [reflexivity|].
        rewrite Ec. reflexivity.
      - cbn [rstrip]. cbn [rstrip] in IH. rewrite IH. reflexivity. }
    assert (Hc : forall c s, is_space c = false ->
                 rstrip (String c s) = String c (rstrip s)).
    { intros c s H. cbn. destruct (rstrip s); [rewrite H|]; reflexivity. }
    assert (Hl : forall s, lstrip s = EmptyString \/
                 exists c t, lstrip s = String c t /\ is_space c = false).
    { induction s as [|c s IH]; cbn; [left; reflexivity|].
      destruct (is_space c) eqn:E; [exact IH|]. right. eauto. }
    intros s. unfold ascii_strip.
    destruct (Hl s) as [->|(c & t & -> & Hsp)]; [reflexivity|].
    rewrite (Hc c t Hsp). cbn [lstrip]. rewrite Hsp.
    rewrite <- (Hc c t Hsp). apply Hr.
  - assert (Hl : forall s, exists a, s = a +:+ lstrip s).
    { induction s as [|c s IH]; cbn; [exists EmptyString; reflexivity|].
      destruct (is_space c).
      - destruct IH as (a & Ha). exists (String c a).
        change (String c a +:+ lstrip s) with (String c (a +:+ lstrip s)).
        f_equal. exact Ha.
      - exists EmptyString. reflexivity. }
    assert (Hr : forall s, exists b, s = rstrip s +:+ b).
    { induction s as [|c s IH]; cbn; [exists EmptyString; reflexivity|].
      destruct IH as (b & Hb).
      destruct (rstrip s) as [|c' t] eqn:E.
      - destruct (is_space c).
        + exists (String c s). reflexivity.
        + exists s. reflexivity.
      - exists b.
        change (String c (String c' t) +:+ b)
          with (String c (String c' t +:+ b)).
        f_equal. exact Hb. }
    intros s. unfold ascii_strip.
    destruct (Hl s) as (a & Ha). destruct (Hr (lstrip s)) as (b & Hb).
    exists a, b. rewrite <- Hb. exact Ha.
  - reflexivity.
  - reflexivity.
Defined.

(** [s.split(sep)] for a one-character separator: never an empty list. *)
Fixpoint split (sep : ascii) (s : string) : list string :=
  match s with
  | EmptyString => [EmptyString]
  | String c s' =>
      if Ascii.eqb c sep then EmptyString :: split sep s'
      else match split sep s' with
           | [] => [String c EmptyString]
           | w :: ws => String c w :: ws
           end
  end.

(** [sep.join(parts)] *)
Fixpoint join (sep : string) (parts : list string) : string :=
  match parts with
  | [] => EmptyString
  | [p] => p
  | p :: ps => p +:+ sep +:+ join sep ps
  end.

(** [sep in s] for a one-character [sep]. *)
Fixpoint contains_char (sep : ascii) (s : string) : bool :=
  match s with
  | EmptyString => false
  | String c s' => Ascii.eqb c sep || contains_char sep s'
  end.

(** [repr] of a list of plain strings: ['a', 'b']. *)
Definition repr_str_list (l : list string) : string :=
  "[" +:+ join ", " (map (fun s => "'" +:+ s +:+ "'") l) +:+ "]".

(** *** datetime: [strptime(s, "%Y-%m-%d")] and UTC timestamps

    [_strptime] compiles the format into the regular expression
    [(?P<Y>\d\d\d\d)-(?P<m>1[0-2]|0[1-9]|[1-9])-(?P<d>3[0-1]|[1-2]\d|0[1-9]|[1-9]| [1-9])],
    matches it at the start of the text and raises [ValueError] when the
    match fails or leaves text unconverted.  No alternative is a prefix of
    an earlier one that could be followed by ["-"] or by the end of the
    text, so trying the alternatives in order decides the match.  The
    classes written out ([[0-9]] and the like) are ASCII; [\d] is any
    decimal digit of Unicode, and [int] reads whatever [\d] matched. *)

Definition in_range (lo hi : Z) (c : ascii) : bool :=
  is_digit c && (lo <=? digit_val c) && (digit_val c <=? hi).

Section Strptime.
Context `{Str : StrMethods}.

(** [\d\d\d\d] *)
Definition parse_Y (s : string) : option (Z * string) :=
  match decimal s with
  | Some (a, r1) =>
  match decimal r1 with
  | Some (b, r2) =>
  match decimal r2 with
  | Some (c, r3) =>
  match decimal r3 with
  | Some (d, rest) => Some (1000 * a + 100 * b + 10 * c + d, rest)
  | None => None
  end
  | None => None
  end
  | None => None
  end
  | None => None
  end.

(** [1[0-2]|0[1-9]|[1-9]] *)
Definition parse_m (s : string) : option (Z * string) :=
  match s with
  | String a rest =>
      match rest with
      | String b rest' =>
          if Ascii.eqb a "1" && in_range 0 2 b then Some (10 + digit_val b, rest')
          else if Ascii.eqb a "0" && in_range 1 9 b then Some (digit_val b, rest')
          else if in_range 1 9 a then Some (digit_val a, rest)
          else None
      | EmptyString => if in_range 1 9 a then Some (digit_val a, rest) else None
      end
  | EmptyString => None
  end.

(** [3[0-1]|[1-2]\d|0[1-9]|[1-9]| [1-9]] *)
Definition parse_d (s : string) : option (Z * string) :=
  match s with
  | String a rest =>
      match rest with
      | String b rest' =>
          if Ascii.eqb a "3" && in_range 0 1 b then Some (30 + digit_val b, rest')
          else if in_range 1 2 a then
            match decimal rest with
            | Some (v, rest'') => Some (10 * digit_val a + v, rest'')
            | None => Some (digit_val a, rest)
            end
          else if Ascii.eqb a "0" && in_range 1 9 b then Some (digit_val b, rest')
          else if in_range 1 9 a then Some (digit_val a, rest)
          else if Ascii.eqb a " " && in_range 1 9 b then Some (digit_val b, rest')
          else None
      | EmptyString => if in_range 1 9 a then Some (digit_val a, rest) else None
      end
  | EmptyString => None
  end.

(** The literal ["-"] of the format. *)
Definition parse_dash (s : string) : option string :=
  match s with
  | String c rest => if Ascii.eqb c "-" then Some rest else None
  | EmptyString => None
  end.

(** datetime.py: [_is_leap], [_days_before_year], [_days_in_month],
    [_days_before_month], [_ymd2ord]. *)
Definition _is_leap (year : Z) : bool :=
  (year mod 4 =? 0) && (negb (year mod 100 =? 0) || (year mod 400 =? 0)).

Definition _days_before_year (year : Z) : Z :=
  let y := year - 1 in y * 365 + y / 4 - y / 100 + y / 400.

Definition _DAYS_IN_MONTH (month : Z) : Z :=
  if (month =? 2) then 28
  else if (month =? 4) || (month =? 6) || (month =? 9) || (month =? 11) then 30
  else 31.

Definition _days_in_month (year month : Z) : Z :=
  if (month =? 2) && _is_leap year then 29 else _DAYS_IN_MONTH month.

Fixpoint days_before_month_tbl (n : nat) : Z :=
  match n with
  | O => 0
  | S k => days_before_month_tbl k + _DAYS_IN_MONTH (Z.of_nat (S k))
  end.

(** [_DAYS_BEFORE_MONTH[month]]: the days of the months before [month] in a
    common year. *)
Definition _DAYS_BEFORE_MONTH (month : Z) : Z :=
  days_before_month_tbl (Z.to_nat (month - 1)).

Definition _days_before_month (year month : Z) : Z :=
  _DAYS_BEFORE_MONTH month + (if (2 <? month) && _is_leap year then 1 else 0).

Definition _ymd2ord (year month day : Z) : Z :=
  _days_before_year year + _days_before_month year month + day.

(** What the [datetime] constructor checks: MINYEAR <= year <= MAXYEAR,
    1 <= month <= 12, 1 <= day <= days in month. *)
Definition check_date_fields (year month day : Z) : bool :=
  (1 <=? year) && (year <=? 9999) && (1 <=? month) && (month <=? 12)
  && (1 <=? day) && (day <=? _days_in_month year month).

(** [datetime.datetime.strptime(date_str, "%Y-%m-%d")]: the date parsed,
    at midnight, or [ValueError]. *)
Definition strptime_Ymd (date_str : string) : Result (Z * Z * Z) :=
  let no_match := Raise (ValueError "time data does not match format '%Y-%m-%d'") in
  match parse_Y date_str with
  | None => no_match
  | Some (y, r1) =>
  match parse_dash r1 with
  | None => no_match
  | Some r2 =>
  match parse_m r2 with
  | None => no_match
  | Some (m, r3) =>
  match parse_dash r3 with
  | None => no_match
  | Some r4 =>
  match parse_d r4 with
  | None => no_match
  | Some (d, r5) =>
      match r5 with
      | EmptyString =>
          if check_date_fields y m d then Ok (y, m, d)
          else Raise (ValueError "date value out of range")
      | String _ _ => Raise (ValueError "unconverted data remains")
      end
  end end end end end.

End Strptime.

(** [int(dt.replace(tzinfo=utc).timestamp())] for a datetime
    [y-m-d hh:mm:ss]: the aware datetime minus the epoch, in seconds. *)
Definition utc_timestamp (y m d hh mm ss : Z) : Z :=
  (_ymd2ord y m d - _ymd2ord 1970 1 1) * 86400 + (hh * 3600 + mm * 60 + ss).

End Py.
Import Py.

#[global] Instance result_ret : MRet Result := fun _ a => Ok a.
#[global] Instance result_bind : MBind Result := fun _ _ k r => rbind r k.

(* ===================================================================== *)
(** ** finnhub_service.py                                                 *)
(* ===================================================================== *)

Module Finnhub.

(** One upstream endpoint call: it raises or returns a value. *)
Inductive ApiResult : Type :=
| ApiRaises (msg : string)
| ApiReturns (v : pyval).

(** [finnhub.Client]: the endpoints the category fetchers use, as functions
    of their arguments. *)
Record Client : Type := mkClient {
  company_profile2 : string -> ApiResult;
  company_peers : string -> ApiResult;
  quote : string -> ApiResult;
  company_basic_financials : string -> string -> ApiResult;
  company_earnings : string -> Z -> ApiResult;
  stock_dividends : string -> string -> string -> ApiResult;
  recommendation_trends : string -> ApiResult;
  company_news : string -> string -> string -> ApiResult;
  transcripts : string -> ApiResult;
  transcripts_list : string -> ApiResult;
  company_executive : string -> ApiResult
}.

(** The two readings of [datetime.datetime.now()] a response carries. *)
Record Clock : Type := mkClock {
  strftime_now : string;   (* now().strftime("%Y-%m-%d %H:%M:%S") *)
  isoformat_now : string   (* now().isoformat() *)
}.

(** [self]: [self.client] is [None] when the constructor failed. *)
Record FinnhubService : Type := mkService {
  client : option Client
}.

(** [_date_to_timestamp(self, date_str, end_of_day=False)] *)
Definition _date_to_timestamp `{Str : StrMethods} (date_str : string)
    (end_of_day : bool) : Result Z :=
  match strptime_Ymd date_str with
  | Ok (y, m, d) =>
      if end_of_day then Ok (utc_timestamp y m d 23 59 59)
      else Ok (utc_timestamp y m d 0 0 0)
  | Raise (ValueError _) => Ok 0      (* except ValueError: return 0 *)
  | Raise e => Raise e
  end.

(** Evaluating [self.client.<endpoint>]: an attribute of [None] raises. *)
Definition client_attr (self : FinnhubService) : Result Client :=
  match client self with
  | Some c => Ok c
  | None => Raise (AttributeError "'NoneType' object has no attribute")
  end.

(** [_safe_api_call(self, func, ...)]; [call] is the outcome of applying
    [func] to the arguments. *)
Definition _safe_api_call (self : FinnhubService) (call : ApiResult) : pyval :=
  match client self with
  | None => PyNone
  | Some _ =>
      match call with
      | ApiReturns v => v
      | ApiRaises _ => PyNone
      end
  end.

(** [_format_response(self, data, meta=None)] *)
Definition _format_response (now : Clock) (data : pyval)
    (meta : option (gmap string pyval)) : Envelope pyval :=
  let md := splice (default ∅ meta)
                   {[ "query_time" := PyStr (strftime_now now) ]} in
  if is_none data then
    mkEnvelope false None None (Some "No data returned or API error") (Some md)
  else
    mkEnvelope true (Some (truthy data)) (Some data) None (Some md).

Definition period (start_date end_date : string) : pyval :=
  PyStr (start_date +:+ " to " +:+ end_date).

Definition symbol_meta (symbol : string) : gmap string pyval :=
  {[ "symbol" := PyStr symbol ]}.

Definition symbol_period_meta (symbol start_date end_date : string)
  : gmap string pyval :=
  <[ "period" := period start_date end_date ]> (symbol_meta symbol).

(** [_get_company_profile(self, symbol)] *)
Definition _get_company_profile (self : FinnhubService) (now : Clock)
    (symbol : string) : Result (Envelope pyval) :=
  c ← client_attr self;
  let data : gmap string pyval := ∅ in
  let data := <[ "profile" := _safe_api_call self (company_profile2 c symbol) ]> data in
  let data := <[ "peers" := _safe_api_call self (company_peers c symbol) ]> data in
  Ok (_format_response now (PyDict data) (Some (symbol_meta symbol))).

(** [_get_market_data(self, symbol, start_date, end_date)] *)
Definition _get_market_data (self : FinnhubService) (now : Clock)
    (symbol start_date end_date : string) : Result (Envelope pyval) :=
  c ← client_attr self;
  let data : gmap string pyval := ∅ in
  let data := <[ "quote" := _safe_api_call self (quote c symbol) ]> data in
  Ok (_format_response now (PyDict data)
        (Some (symbol_period_meta symbol start_date end_date))).

(** [_get_financials(self, symbol, start_date, end_date)] *)
Definition _get_financials (self : FinnhubService) (now : Clock)
    (symbol start_date end_date : string) : Result (Envelope pyval) :=
  c ← client_attr self;
  let data : gmap string pyval := ∅ in
  let data := <[ "basic_financials" :=
                 _safe_api_call self (company_basic_financials c symbol "all") ]> data in
  let data := <[ "earnings_surprises" :=
                 _safe_api_call self (company_earnings c symbol 4) ]> data in
  let data := <[ "dividends" :=
                 _safe_api_call self (stock_dividends c symbol start_date end_date) ]> data in
  Ok (_format_response now (PyDict data)
        (Some (symbol_period_meta symbol start_date end_date))).

(** [_get_estimates_and_analysis(self, symbol, start_date, end_date)] *)
Definition _get_estimates_and_analysis (self : FinnhubService) (now : Clock)
    (symbol start_date end_date : string) : Result (Envelope pyval) :=
  c ← client_attr self;
  let data : gmap string pyval := ∅ in
  let data := <[ "recommendation_trends" :=
                 _safe_api_call self (recommendation_trends c symbol) ]> data in
  Ok (_format_response now (PyDict data)
        (Some (symbol_period_meta symbol start_date end_date))).

(** [_get_sentiment_and_news(self, symbol, start_date, end_date)] *)
Definition _get_sentiment_and_news (self : FinnhubService) (now : Clock)
    (symbol start_date end_date : string) : Result (Envelope pyval) :=
  c ← client_attr self;
  let data : gmap string pyval := ∅ in
  let news := _safe_api_call self (company_news c symbol start_date end_date) in
  let data :=
    match news with
    | PyList items => <[ "news" := PyList (take 10 items) ]> data
    | _ => <[ "news" := news ]> data
    end in
  Ok (_format_response now (PyDict data)
        (Some (symbol_period_meta symbol start_date end_date))).

(** [_fetch_transcripts], [_fetch_transcripts_list],
    [_fetch_company_executives]: the one-call operations all have this
    shape. *)
Definition _fetch_transcripts (self : FinnhubService) (now : Clock)
    (transcript_id : string) : Result (Envelope pyval) :=
  c ← client_attr self;
  let data := _safe_api_call self (transcripts c transcript_id) in
  Ok (_format_response now data (Some {[ "transcript_id" := PyStr transcript_id ]})).

Definition _fetch_transcripts_list (self : FinnhubService) (now : Clock)
    (symbol : string) : Result (Envelope pyval) :=
  c ← client_attr self;
  let data := _safe_api_call self (transcripts_list c symbol) in
  Ok (_format_response now data (Some (symbol_meta symbol))).

Definition _fetch_company_executives (self : FinnhubService) (now : Clock)
    (symbol : string) : Result (Envelope pyval) :=
  c ← client_attr self;
  let data := _safe_api_call self (company_executive c symbol) in
  Ok (_format_response now data (Some (symbol_meta symbol))).

(** The five category methods [_get_all_stock_info] looks up on [self]. *)
Record CategoryFetchers : Type := mkFetchers {
  fetch_company_profile : string -> Result (Envelope pyval);
  fetch_market_data : string -> string -> string -> Result (Envelope pyval);
  fetch_financials : string -> string -> string -> Result (Envelope pyval);
  fetch_estimates_and_analysis :
    string -> string -> string -> Result (Envelope pyval);
  fetch_sentiment_and_news :
    string -> string -> string -> Result (Envelope pyval)
}.

(** [res.get("data")] *)
Definition get_data (res : Envelope pyval) : pyval := default PyNone (data res).

(** [if res.get("success"): raw_data[key] = res.get("data")] *)
Definition merge_category (key : string) (res : Envelope pyval)
    (raw_data : gmap string pyval) : gmap string pyval :=
  if success res then <[ key := get_data res ]> raw_data else raw_data.

(** The body of [_get_all_stock_info(self, symbol, start_date, end_date)],
    over the category methods of [self]. *)
Definition get_all_stock_info_with (F : CategoryFetchers) (now : Clock)
    (symbol start_date end_date : string) : Result (Envelope pyval) :=
  let raw_data : gmap string pyval := ∅ in
  profile_res ← fetch_company_profile F symbol;
  let raw_data := merge_category "company_profile" profile_res raw_data in
  market_res ← fetch_market_data F symbol start_date end_date;
  let raw_data := merge_category "market_data" market_res raw_data in
  financial_res ← fetch_financials F symbol start_date end_date;
  let raw_data := merge_category "financials" financial_res raw_data in
  analysis_res ← fetch_estimates_and_analysis F symbol start_date end_date;
  let raw_data := merge_category "analysis" analysis_res raw_data in
  sentiment_res ← fetch_sentiment_and_news F symbol start_date end_date;
  let raw_data := merge_category "sentiment" sentiment_res raw_data in
  Ok (_format_response now (PyDict raw_data)
        (Some (<[ "generated_at" := PyStr (isoformat_now now) ]>
                 (symbol_period_meta symbol start_date end_date)))).

(** The category methods as [FinnhubService] defines them. *)
Definition methods (self : FinnhubService) (now : Clock) : CategoryFetchers :=
  {| fetch_company_profile := _get_company_profile self now;
     fetch_market_data := _get_market_data self now;
     fetch_financials := _get_financials self now;
     fetch_estimates_and_analysis := _get_estimates_and_analysis self now;
     fetch_sentiment_and_news := _get_sentiment_and_news self now |}.

(** [_get_all_stock_info(self, symbol, start_date, end_date)] *)
Definition _get_all_stock_info (self : FinnhubService) (now : Clock)
    (symbol start_date end_date : string) : Result (Envelope pyval) :=
  get_all_stock_info_with (methods self now) now symbol start_date end_date.

(** The keys of the merged report. *)
Definition CATEGORY_KEYS : list string :=
  ["company_profile"; "market_data"; "financials"; "analysis"; "sentiment"].

End Finnhub.

(* ===================================================================== *)
(** ** tushare_realtime_service.py                                        *)
(* ===================================================================== *)

Module Tushare.

(** A row of the [stock_basic] frame, with the columns the service asks
    for ([fields='ts_code,symbol,name']). *)
Record DirectoryEntry : Type := mkEntry {
  ts_code : string;
  symbol : string;
  name : string
}.

(** A cell of a market record: a null ([None], or the NaN pandas puts in
    its place), a number, or text. *)
Inductive cell : Type :=
| CNull
| CNum (q : Q)
| CStr (s : string).

(** A cell of an upstream frame: NaN/None/NaT, an int or float, or any
    other object, given by its [str()]. *)
Inductive ucell : Type :=
| UNa
| UNum (q : Q)
| UObj (s : string).

(** A row of the [rt_min] frame: its [ts_code] and what the inline
    conversions ([str], [float] under [pd.notna]) make of its bar fields. *)
Record MinuteRow : Type := mkMinuteRow {
  bar_code : string;
  bar_fields : Result (gmap string cell)
}.

(** An upstream call raises, or returns [None] or a frame (its rows). *)
Inductive Upstream (F : Type) : Type :=
| Raises (msg : string)
| Returns (df : option F).
Arguments Raises {F} msg.
Arguments Returns {F} df.

(** [self.pro]: the Tushare Pro API object. *)
Record ProApi : Type := mkPro {
  stock_basic : Upstream (list DirectoryEntry);
  rt_min : string -> string -> Upstream (list MinuteRow)
}.

(** The [tushare] module's crawler endpoints.  A quote or tick row is
    given by what the inline field conversions make of it: the flat record,
    or the exception they raise. *)
Record TsModule : Type := mkTs {
  realtime_quote : string -> string -> Upstream (list (Result (gmap string cell)));
  realtime_tick : string -> string -> Upstream (list (Result (gmap string cell)));
  realtime_list : string -> Upstream (list (gmap string ucell))
}.

(** [self] and the module global [ts]: [pro] is [None] without a token,
    [ts] is [None] when [TUSHARE_AVAILABLE] is false. *)
Record TushareRealtimeService : Type := mkService {
  pro : option ProApi;
  ts : option TsModule
}.

Definition FREQ_OPTIONS : list string :=
  ["1MIN"; "5MIN"; "15MIN"; "30MIN"; "60MIN"].

Definition cache_expire_hours : Z := 24.

(** The surroundings of one request. *)
Record Env : Type := mkEnv {
  time_now : Q;            (* time.time() *)
  strftime_now : string;   (* datetime.now().strftime("%Y-%m-%d %H:%M:%S") *)
  cache_writable : bool    (* whether open(cache_file, 'w') succeeds *)
}.

(** A frame that is no directory of the service, given by what its two
    readers make of it: the body of [_get_code_by_name] after the fetch
    ([df.empty], [df[df['name'] == name]], [row.iloc[0]['ts_code']]) for a
    list of names, and the body of [_get_name_by_code] for a list of codes.
    Each gives the dict built, or the exception raised ([KeyError] when the
    frame has rows but not the column read).  A frame in which a matching
    row holds a code or a name that is no string has no value here. *)
Record ForeignFrame : Type := mkForeignFrame {
  codes_of_names : list string -> Result (list (string * string));
  names_of_codes : list string -> Result (list (string * string))
}.

(** The ["data"] member of a cache document:
    - [JRows]: a list of records, each with strings [ts_code], [symbol] and
      [name], as the service writes it (the empty list is false);
    - [JNull]: null, a missing member, or another false value;
    - [JOther]: a true value that [pd.DataFrame] rejects (a number, a
      string, [true], a dict of scalars);
    - [JFrame]: any other true value; [pd.DataFrame] builds a frame of it,
      which is no directory ([[{"foo": 1}]], [[1, 2, 3]], [{"a": [1]}]). *)
Inductive payload : Type :=
| JRows (rows : list DirectoryEntry)
| JNull
| JOther
| JFrame (f : ForeignFrame).

(** A cache file [<cache_key>.json].
    - [Unreadable]: a file on which the [try] block of [_load_cache]
      raises: it is not JSON or not an object, or its timestamp is no
      number, or is an integer too large for a float, so that
      [time.time() - cache_time] raises [OverflowError];
    - [Stored]: a document with its ["timestamp"] member, if it has one (a
      float, or an integer within the range of a float), and its data.
      JSON admits the timestamps [NaN] and [Infinity]; at any one moment
      such a document is read as one with a finite timestamp on the same
      side of the window ([NaN] and [-Infinity] outside, [Infinity]
      inside). *)
Inductive CacheDoc : Type :=
| Unreadable
| Stored (timestamp : option Q) (data : payload).

(** The frame [_get_stock_basic] returns: the directory, or the frame built
    of a cached value that is no directory. *)
Inductive StockFrame : Type :=
| Rows (rows : list DirectoryEntry)
| Foreign (f : ForeignFrame).

(** The upstream calls a request makes, in order. *)
Inductive Call : Type :=
| CallStockBasic
| CallRtMin (ts_codes freq : string)
| CallRealtimeQuote (ts_codes src : string)
| CallRealtimeTick (ts_code src : string)
| CallRealtimeList (src : string).

(** What a request reads and changes: the cache directory, by cache key,
    and the trace of upstream calls made so far. *)
Record St : Type := mkSt {
  disk : gmap string CacheDoc;
  calls : list Call
}.

(** State and exceptions. *)
Definition M (A : Type) : Type := St -> Result A * St.

Definition ret {A : Type} (a : A) : M A := fun st => (Ok a, st).

Definition raise {A : Type} (e : exn) : M A := fun st => (Raise e, st).

Definition bind {A B : Type} (m : M A) (k : A -> M B) : M B :=
  fun st =>
    match m st with
    | (Ok a, st') => k a st'
    | (Raise e, st') => (Raise e, st')
    end.

(** [try: body except Exception as e: handler(e)] *)
Definition try_except {A : Type} (body : M A) (handler : exn -> M A) : M A :=
  fun st =>
    match body st with
    | (Ok a, st') => (Ok a, st')
    | (Raise e, st') => handler e st'
    end.

Definition lift {A : Type} (r : Result A) : M A := fun st => (r, st).

Declare Scope m_scope.
Delimit Scope m_scope with M.
Notation "'do' x <- m ; k" := (bind m (fun x => k))
  (at level 10, x name, m at level 100, k at level 200) : m_scope.
Local Open Scope m_scope.

(** [await loop.run_in_executor(None, lambda: endpoint(...))]: the call is
    recorded, and its exception propagates. *)
Definition call_upstream {F : Type} (c : Call) (outcome : Upstream F)
  : M (option F) :=
  fun st =>
    let st' := mkSt (disk st) (calls st ++ [c]) in
    match outcome with
    | Raises msg => (Raise (UpstreamError msg), st')
    | Returns df => (Ok df, st')
    end.

Definition Qlt_bool (x y : Q) : bool := negb (Qle_bool y x).

(** [_load_cache(self, cache_key)]: the data of a fresh document, else
    [None]. *)
Definition _load_cache (env : Env) (cache_key : string) : M payload :=
  fun st =>
    match disk st !! cache_key with
    | Some (Stored timestamp data) =>
        let cache_time := default 0%Q timestamp in
        if Qlt_bool (time_now env - cache_time)
                    (inject_Z (cache_expire_hours * 3600))
        then (Ok data, st)
        else (Ok JNull, st)
    | Some Unreadable => (Ok JNull, st)
    | None => (Ok JNull, st)
    end.

(** [_save_cache(self, cache_key, data)]: a write error is logged only. *)
Definition _save_cache (env : Env) (cache_key : string)
    (rows : list DirectoryEntry) : M unit :=
  fun st =>
    if cache_writable env
    then (Ok tt, mkSt (<[ cache_key := Stored (Some (time_now env)) (JRows rows) ]>
                         (disk st)) (calls st))
    else (Ok tt, st).

(** [df is None or df.empty] for a frame given by its rows. *)
Definition none_or_empty {R : Type} (df : option (list R)) : bool :=
  match df with
  | None | Some [] => true
  | Some (_ :: _) => false
  end.

(** [_get_stock_basic(self)] *)
Definition _get_stock_basic (self : TushareRealtimeService) (env : Env)
  : M (option StockFrame) :=
  match pro self with
  | None => ret None
  | Some api =>
      do cached_data <- _load_cache env "stock_basic";
      let fetch : M (option StockFrame) :=
        try_except
          (do df <- call_upstream CallStockBasic (stock_basic api);
           match df with
           | Some (r :: rows) =>
               do _ <- _save_cache env "stock_basic" (r :: rows);
               ret (Some (Rows (r :: rows)))
           | _ => ret None
           end)
          (fun _ => ret None) in
      match cached_data with
      | JRows (r :: rows) => ret (Some (Rows (r :: rows)))
      | JFrame f => ret (Some (Foreign f))
      | JOther => fetch      (* DataFrame(cached_data) raised: pass *)
      | JRows [] | JNull => fetch
      end
  end.

(** An insertion-ordered dict: [d[k] = v]. *)
Fixpoint odict_set (k v : string) (d : list (string * string))
  : list (string * string) :=
  match d with
  | [] => [(k, v)]
  | (k', v') :: d' =>
      if String.eqb k' k then (k, v) :: d' else (k', v') :: odict_set k v d'
  end.

(** [d.get(k)] *)
Fixpoint odict_get (k : string) (d : list (string * string)) : option string :=
  match d with
  | [] => None
  | (k', v) :: d' => if String.eqb k' k then Some v else odict_get k d'
  end.

(** [k in d] *)
Definition odict_mem (k : string) (d : list (string * string)) : bool :=
  match odict_get k d with Some _ => true | None => false end.

Definition odict_values (d : list (string * string)) : list string := map snd d.

(** The loop of [_get_code_by_name]: [row = df[df['name'] == name]], and
    [row.iloc[0]['ts_code']] when there is a row. *)
Definition resolve_codes (df : list DirectoryEntry) (names : list string)
  : list (string * string) :=
  fold_left
    (fun name_map n =>
       match filter (fun e => String.eqb (name e) n) df with
       | [] => name_map
       | e :: _ => odict_set n (ts_code e) name_map
       end)
    names [].

(** [_get_code_by_name(self, names)] *)
Definition _get_code_by_name (self : TushareRealtimeService) (env : Env)
    (names : list string) : M (list (string * string)) :=
  do df <- _get_stock_basic self env;
  match df with
  | None | Some (Rows []) => ret []
  | Some (Rows rows) => ret (resolve_codes rows names)
  | Some (Foreign f) => lift (codes_of_names f names)
  end.

Definition resolve_names (df : list DirectoryEntry) (codes : list string)
  : list (string * string) :=
  fold_left
    (fun code_map code =>
       match filter (fun e => String.eqb (ts_code e) code) df with
       | [] => code_map
       | e :: _ => odict_set code (name e) code_map
       end)
    codes [].

(** [_get_name_by_code(self, codes)] *)
Definition _get_name_by_code (self : TushareRealtimeService) (env : Env)
    (codes : list string) : M (list (string * string)) :=
  do df <- _get_stock_basic self env;
  match df with
  | None | Some (Rows []) => ret []
  | Some (Rows rows) => ret (resolve_names rows codes)
  | Some (Foreign f) => lift (names_of_codes f codes)
  end.

(** [_validate_freq(self, freq)] *)
Definition _validate_freq `{Str : StrMethods} (freq : string) : Result string :=
  let freq_upper := upper freq in
  if existsb (String.eqb freq_upper) FREQ_OPTIONS
  then Ok freq_upper
  else Raise (ValueError ("Invalid freq: " +:+ freq +:+ ". Must be one of "
                          +:+ repr_str_list FREQ_OPTIONS)).

(** A market record and the envelopes of this service. *)
Abbreviation record := (gmap string cell).
Abbreviation Response := (Envelope (list (gmap string cell))).

(** [{"success": False, "error": msg}] *)
Definition failure (msg : string) : Response :=
  mkEnvelope false None None (Some msg) None.

Definition py_count {A : Type} (l : list A) : pyval :=
  PyNum (inject_Z (Z.of_nat (length l))).

Definition no_data_message : pyval :=
  PyStr "No data returned (market may be closed)".

(** The first raising row aborts the loop over [df.iterrows()]. *)
Fixpoint collect {A : Type} (rows : list (Result A)) : Result (list A) :=
  match rows with
  | [] => Ok []
  | r :: rest => a ← r; l ← collect rest; Ok (a :: l)
  end.

Definition minute_record (code_name_map : list (string * string))
    (row : MinuteRow) : Result (gmap string cell) :=
  fields ← bar_fields row;
  let code := bar_code row in
  Ok (<[ "ts_code" := CStr code ]>
        (<[ "name" := CStr (default "" (odict_get code code_name_map)) ]> fields)).

(** [_get_realtime_minute(self, ts_codes, freq="1MIN")] *)
Definition _get_realtime_minute `{Str : StrMethods}
    (self : TushareRealtimeService) (env : Env)
    (ts_codes freq : string) : M Response :=
  match pro self with
  | None => ret (failure "Tushare not initialized")
  | Some api =>
      match _validate_freq freq with
      | Raise (ValueError msg) => ret (failure (str_exn (ValueError msg)))
      | Raise e => raise e
      | Ok freq =>
          try_except
            (do df <- call_upstream (CallRtMin ts_codes freq) (rt_min api ts_codes freq);
             if none_or_empty df then
               ret (mkEnvelope true None (Some []) None
                      (Some (<[ "ts_codes" := PyStr ts_codes ]>
                            (<[ "freq" := PyStr freq ]>
                            (<[ "count" := PyNum 0 ]>
                            {[ "message" := no_data_message ]})))))
             else
               let codes_list := split "," ts_codes in
               do code_name_map <- _get_name_by_code self env codes_list;
               do records <- lift (collect (map (minute_record code_name_map)
                                                (default [] df)));
               ret (mkEnvelope true None (Some records) None
                      (Some (<[ "ts_codes" := PyStr ts_codes ]>
                            (<[ "freq" := PyStr freq ]>
                            (<[ "count" := py_count records ]>
                            {[ "query_time" := PyStr (strftime_now env) ]}))))))
            (fun e => ret (failure (str_exn e)))
      end
  end.

(** [[n.strip() for n in stock_names.split(',') if n.strip()]] *)
Definition names_list_of `{Str : StrMethods} (stock_names : string)
  : list string :=
  map strip (filter (fun n => negb (String.eqb (strip n) ""))
                    (split "," stock_names)).

(** [result["metadata"]["not_found_names"] = not_found], under
    [if not_found and result.get("success")]. *)
Definition attach_not_found (not_found : list string) (result : Response)
  : M Response :=
  match not_found with
  | [] => ret result
  | _ :: _ =>
      if success result then
        match metadata result with
        | Some md =>
            ret (mkEnvelope (success result) (found result) (data result)
                   (error result)
                   (Some (<[ "not_found_names" := PyList (map PyStr not_found) ]> md)))
        | None => raise (KeyError "'metadata'")
        end
      else ret result
  end.

(** [[n for n in names_list if n not in name_code_map]] *)
Definition not_found_names (names_list : list string)
    (name_code_map : list (string * string)) : list string :=
  filter (fun n => negb (odict_mem n name_code_map)) names_list.

(** [_get_minute_by_name(self, stock_names, freq="1MIN")] *)
Definition _get_minute_by_name `{Str : StrMethods}
    (self : TushareRealtimeService) (env : Env)
    (stock_names freq : string) : M Response :=
  match pro self with
  | None => ret (failure "Tushare not initialized")
  | Some _ =>
      let names_list := names_list_of stock_names in
      match names_list with
      | [] => ret (failure "No stock names provided")
      | _ :: _ =>
          do name_code_map <- _get_code_by_name self env names_list;
          match name_code_map with
          | [] => ret (failure ("Could not find codes for: " +:+ stock_names))
          | _ :: _ =>
              let not_found := not_found_names names_list name_code_map in
              let ts_codes := join "," (odict_values name_code_map) in
              do result <- _get_realtime_minute self env ts_codes freq;
              attach_not_found not_found result
          end
      end
  end.

(** [_get_realtime_quote(self, ts_codes, src="sina")] *)
Definition _get_realtime_quote (self : TushareRealtimeService) (env : Env)
    (ts_codes src : string) : M Response :=
  match ts self with
  | None => ret (failure "Tushare not available")
  | Some tsm =>
      try_except
        (do df <- call_upstream (CallRealtimeQuote ts_codes src)
                                (realtime_quote tsm ts_codes src);
         if none_or_empty df then
           ret (mkEnvelope true None (Some []) None
                  (Some (<[ "ts_codes" := PyStr ts_codes ]>
                        (<[ "src" := PyStr src ]>
                        (<[ "count" := PyNum 0 ]>
                        {[ "message" := no_data_message ]})))))
         else
           do records <- lift (collect (default [] df));
           ret (mkEnvelope true None (Some records) None
                  (Some (<[ "ts_codes" := PyStr ts_codes ]>
                        (<[ "src" := PyStr src ]>
                        (<[ "count" := py_count records ]>
                        {[ "query_time" := PyStr (strftime_now env) ]}))))))
        (fun e => ret (failure (str_exn e)))
  end.

(** [get_realtime_by_name(self, stock_names)] *)
Definition get_realtime_by_name `{Str : StrMethods}
    (self : TushareRealtimeService) (env : Env)
    (stock_names : string) : M Response :=
  let names_list := names_list_of stock_names in
  match names_list with
  | [] => ret (failure "No stock names provided")
  | _ :: _ =>
      if (50 <? length names_list)%nat then
        ret (failure "Maximum 50 stocks per request")
      else
        do name_code_map <- _get_code_by_name self env names_list;
        match name_code_map with
        | [] => ret (failure ("Could not find codes for: " +:+ stock_names))
        | _ :: _ =>
            let not_found := not_found_names names_list name_code_map in
            let ts_codes := join "," (odict_values name_code_map) in
            do result <- _get_realtime_quote self env ts_codes "sina";
            attach_not_found not_found result
        end
  end.

(** [_get_realtime_tick(self, ts_code, src="sina")] *)
Definition _get_realtime_tick (self : TushareRealtimeService) (env : Env)
    (ts_code src : string) : M Response :=
  match ts self with
  | None => ret (failure "Tushare not available")
  | Some tsm =>
      if String.eqb ts_code "" then ret (failure "ts_code is required")
      else if contains_char "," ts_code then
        ret (failure "Only single stock code is supported for realtime_tick")
      else
        try_except
          (do df <- call_upstream (CallRealtimeTick ts_code src)
                                  (realtime_tick tsm ts_code src);
           if none_or_empty df then
             ret (mkEnvelope true None (Some []) None
                    (Some (<[ "ts_code" := PyStr ts_code ]>
                          (<[ "src" := PyStr src ]>
                          (<[ "count" := PyNum 0 ]>
                          {[ "message" := no_data_message ]})))))
           else
             do code_name_map <- _get_name_by_code self env [ts_code];
             let stock_name := default "" (odict_get ts_code code_name_map) in
             do records <- lift (collect (default [] df));
             ret (mkEnvelope true None (Some records) None
                    (Some (<[ "ts_code" := PyStr ts_code ]>
                          (<[ "name" := PyStr stock_name ]>
                          (<[ "src" := PyStr src ]>
                          (<[ "count" := py_count records ]>
                          {[ "query_time" := PyStr (strftime_now env) ]})))))))
          (fun e => ret (failure (str_exn e)))
  end.

(** [get_realtime_tick_by_name(self, stock_name, src="sina")] *)
Definition get_realtime_tick_by_name `{Str : StrMethods}
    (self : TushareRealtimeService) (env : Env)
    (stock_name src : string) : M Response :=
  if String.eqb stock_name "" then ret (failure "stock_name is required")
  else
    do name_code_map <- _get_code_by_name self env [strip stock_name];
    match name_code_map with
    | [] => ret (failure ("Could not find code for: " +:+ stock_name))
    | _ :: _ =>
        (* a missing key would pass None on, which is false like an empty string *)
        let ts_code := default "" (odict_get (strip stock_name) name_code_map) in
        _get_realtime_tick self env ts_code src
    end.

(** The cleaning loop of [_get_realtime_list]: [pd.isna(value)] gives
    [None], an int or float stays, anything else becomes [str(value)]. *)
Definition clean_cell (value : ucell) : cell :=
  match value with
  | UNa => CNull
  | UNum q => CNum q
  | UObj s => CStr s
  end.

Definition dict_is_empty {V : Type} (d : gmap string V) : bool :=
  match map_to_list d with [] => true | _ :: _ => false end.

(** [df is None or df.empty] for a frame given by [df.to_dict('records')]:
    a frame is empty when it has no row or no column. *)
Definition list_frame_empty (df : option (list (gmap string ucell))) : bool :=
  match df with
  | None => true
  | Some rows => forallb dict_is_empty rows
  end.

(** [_get_realtime_list(self, src="dc")] *)
Definition _get_realtime_list (self : TushareRealtimeService) (env : Env)
    (src : string) : M Response :=
  match ts self with
  | None => ret (failure "Tushare not available")
  | Some tsm =>
      try_except
        (do df <- call_upstream (CallRealtimeList src) (realtime_list tsm src);
         if list_frame_empty df then
           ret (mkEnvelope true None (Some []) None
                  (Some (<[ "src" := PyStr src ]>
                        (<[ "count" := PyNum 0 ]>
                        {[ "message" := no_data_message ]}))))
         else
           let records := default [] df in
           let cleaned_records := map (fmap clean_cell) records in
           ret (mkEnvelope true None (Some cleaned_records) None
                  (Some (<[ "src" := PyStr src ]>
                        (<[ "count" := py_count cleaned_records ]>
                        {[ "query_time" := PyStr (strftime_now env) ]})))))
        (fun e => ret (failure (str_exn e)))
  end.

(** *** The pandas calls of [get_realtime_list_top] *)

(** A frame built from records: its columns, and its rows, each with a
    cell in every column. *)
Record Frame : Type := mkFrame {
  columns : gset string;
  rows : list (gmap string cell)
}.

(** [pd.DataFrame(records)]: the columns are the keys of all the records;
    a record without a column gets NaN there.  Numbers are rationals, so
    the column types pandas infers are not modelled: an integer column that
    holds a null comes back as floating point, which rounds integers beyond
    2^53. *)
Definition DataFrame (records : list (gmap string cell)) : Frame :=
  let cols : gset string := ⋃ (map dom records) in
  mkFrame cols (map (fun r => r ∪ gset_to_gmap CNull cols) records).

(** [row[by]] *)
Definition sort_key (by_ : string) (row : gmap string cell) : cell :=
  default CNull (row !! by_).

Definition is_null (c : cell) : bool :=
  match c with CNull => true | _ => false end.

(** [a <= b] between two cells that are not null; a number and a text do
    not compare ([TypeError]). *)
Definition cell_leb (a b : cell) : option bool :=
  match a, b with
  | CNum x, CNum y => Some (Qle_bool x y)
  | CStr x, CStr y => Some (String.leb x y)
  | _, _ => None
  end.

(** The order [sort_values] sorts by: [ascending] or not. *)
Definition before (ascending : bool) (a b : cell) : bool :=
  if ascending then default false (cell_leb a b)
  else default false (cell_leb b a).

(** Whether the cells that are not null are all numbers or all text. *)
Definition comparable (keys : list cell) : bool :=
  forallb (fun c => match c with CNum _ => true | _ => false end) keys
  || forallb (fun c => match c with CStr _ => true | _ => false end) keys.

Fixpoint insert_row (by_ : string) (ascending : bool)
    (x : gmap string cell) (l : list (gmap string cell))
  : list (gmap string cell) :=
  match l with
  | [] => [x]
  | y :: l' =>
      if before ascending (sort_key by_ x) (sort_key by_ y)
      then x :: y :: l'
      else y :: insert_row by_ ascending x l'
  end.

Definition sort_rows (by_ : string) (ascending : bool)
    (l : list (gmap string cell)) : list (gmap string cell) :=
  foldr (insert_row by_ ascending) [] l.

(** [df.sort_values(by=by, ascending=ascending, na_position='last')]: the
    rows whose key is not null, sorted, then the rows whose key is null, in
    their order.  pandas leaves the order of rows with equal keys open; only
    this model fixes it.  Comparing a number with a text raises [TypeError]
    (its message here stands for whichever pair of types met). *)
Definition sort_values (by_ : string) (ascending : bool) (df : Frame)
  : Result Frame :=
  let non_nans := filter (fun r => negb (is_null (sort_key by_ r))) (rows df) in
  let nans := filter (fun r => is_null (sort_key by_ r)) (rows df) in
  if comparable (map (sort_key by_) non_nans)
  then Ok (mkFrame (columns df) (sort_rows by_ ascending non_nans ++ nans))
  else Raise (TypeError "'<' not supported between instances of 'str' and 'float'").

(** [df.head(n)]: the first [n] rows, or all but the last [-n] rows. *)
Definition head (n : Z) (df : Frame) : Frame :=
  let k := if (0 <=? n) then Z.to_nat n
           else (length (rows df) - Z.to_nat (- n))%nat in
  mkFrame (columns df) (take k (rows df)).

(** The [try] block of [get_realtime_list_top], from the records of the
    market snapshot. *)
Definition top_response (env : Env) (src : string) (top_n : Z)
    (sort_by : string) (ascending : bool)
    (records : list (gmap string cell)) : Result Response :=
  let df := DataFrame records in
  df ← (if bool_decide (sort_by ∈ columns df)
        then sort_values sort_by ascending df
        else Ok df);
  let df_top := head top_n df in
  Ok (mkEnvelope true None (Some (rows df_top)) None
        (Some (<[ "src" := PyStr src ]>
              (<[ "top_n" := PyNum (inject_Z top_n) ]>
              (<[ "sort_by" := PyStr sort_by ]>
              (<[ "ascending" := PyBool ascending ]>
              (<[ "count" := py_count (rows df_top) ]>
              (<[ "total_stocks" := py_count (rows df) ]>
              {[ "query_time" := PyStr (strftime_now env) ]})))))))).

(** [get_realtime_list_top(self, src="dc", top_n=20, sort_by="pct_change",
    ascending=False)] *)
Definition get_realtime_list_top (self : TushareRealtimeService) (env : Env)
    (src : string) (top_n : Z) (sort_by : string) (ascending : bool)
  : M Response :=
  do result <- _get_realtime_list self env src;
  match success result, data result with
  | true, Some (r :: records) =>
      try_except
        (lift (top_response env src top_n sort_by ascending (r :: records)))
        (fun e => ret (failure (str_exn e)))
  | _, _ => ret result      (* not success, or no data *)
  end.

End Tushare.


(* ===================================================================== *)
(** ** The aggregated report, as the specification speaks of it           *)
(* ===================================================================== *)

Module AggregatorSpec.
Import Finnhub.

(** Whether a category's own fetch reported success. *)
Definition reported_success (fetched : Result (Envelope pyval)) : Prop :=
  exists res, fetched = Ok res /\ success res = true.

(** Sample clock, category methods and client. *)
Definition clock : Clock := mkClock "2024-03-01 09:30:00" "2024-03-01T09:30:00".

(** Category methods that all report failure. *)
Definition failed : Result (Envelope pyval) :=
  Ok (_format_response clock PyNone None).

Definition failing_fetchers : CategoryFetchers :=
  {| fetch_company_profile := fun _ => failed;
     fetch_market_data := fun _ _ _ => failed;
     fetch_financials := fun _ _ _ => failed;
     fetch_estimates_and_analysis := fun _ _ _ => failed;
     fetch_sentiment_and_news := fun _ _ _ => failed |}.


End AggregatorSpec.

(* ===================================================================== *)
(** ** Calendar dates, as the specification speaks of them                *)
(* ===================================================================== *)

Module DateSpec.

Definition digit_char (n : Z) : ascii := ascii_of_nat (48 + Z.to_nat n).

Definition pad2 (n : Z) : string :=
  String (digit_char (n / 10)) (String (digit_char (n mod 10)) EmptyString).

Definition pad4 (n : Z) : string :=
  String (digit_char (n / 1000))
    (String (digit_char (n / 100 mod 10)) (pad2 (n mod 100))).

(** The text [YYYY-MM-DD] of a date. *)
Definition iso_date (y m d : Z) : string :=
  pad4 y +:+ "-" +:+ pad2 m +:+ "-" +:+ pad2 d.

(** A day of the proleptic Gregorian calendar in the years 1 to 9999. *)
Definition valid_date (y m d : Z) : Prop :=
  1 <= y <= 9999 /\ 1 <= m <= 12 /\ 1 <= d <= _days_in_month y m.

(** A well-formed calendar date in [YYYY-MM-DD] form. *)
Definition well_formed_date (s : string) : Prop :=
  exists y m d, valid_date y m d /\ s = iso_date y m d.

(** Days from 1970-01-01 to a civil date, by the usual closed formula over
    400-year eras (the year starting in March). *)
Definition days_from_civil (y m d : Z) : Z :=
  let y' := if m <=? 2 then y - 1 else y in
  let era := y' / 400 in
  let yoe := y' - era * 400 in
  let mp := if 2 <? m then m - 3 else m + 9 in
  let doy := (153 * mp + 2) / 5 + d - 1 in
  let doe := yoe * 365 + yoe / 4 - yoe / 100 + doy in
  era * 146097 + doe - 719468.

(** The UTC Unix timestamp of midnight, or of 23:59:59, of a date. *)
Definition unix_timestamp (y m d : Z) (end_of_day : bool) : Z :=
  days_from_civil y m d * 86400 + (if end_of_day then 86399 else 0).

(** C9 as the specification words it: whatever is not a well-formed date
    gives 0. *)
Definition malformed_gives_zero `{Str : StrMethods} : Prop :=
  forall (s : string) (end_of_day : bool),
    ~ well_formed_date s -> Finnhub._date_to_timestamp s end_of_day = Ok 0.

End DateSpec.

(* ===================================================================== *)
(** ** The symbol directory, as the specification speaks of it            *)
(* ===================================================================== *)

Module DirectorySpec.
Import Tushare.

(** The fixed cache key of the directory. *)
Definition DIRECTORY_KEY : string := "stock_basic".

(** The expiration window, in seconds. *)
Definition WINDOW : Q := inject_Z (24 * 3600).

(** The cache holds a directory snapshot [rows], not empty, whose age is
    below the expiration threshold. *)
Definition fresh_snapshot (env : Env) (st : St) (rows : list DirectoryEntry)
  : Prop :=
  exists timestamp,
    disk st !! DIRECTORY_KEY = Some (Stored timestamp (JRows rows)) /\
    rows <> [] /\
    (time_now env - default 0%Q timestamp < WINDOW)%Q.



(** The cache holds, within the window, a value that is no directory but
    of which [pd.DataFrame] builds a frame. *)
Definition fresh_frame (env : Env) (st : St) (f : ForeignFrame) : Prop :=
  exists timestamp,
    disk st !! DIRECTORY_KEY = Some (Stored timestamp (JFrame f)) /\
    (time_now env - default 0%Q timestamp < WINDOW)%Q.

(** The cache holds no such value within the window: the cache file of the
    directory is absent, unreadable or expired, or its data is a list of
    directory records, a false value, or a value [pd.DataFrame] rejects. *)
Definition no_foreign_frame (env : Env) (st : St) : Prop :=
  forall f, ~ fresh_frame env st f.

(** The cache holds, within the window, a value the fetch returns as it
    is: a directory snapshot that is not empty, or a value of the other
    kind. *)
Definition usable_cached_value (env : Env) (st : St) : Prop :=
  (exists rows, fresh_snapshot env st rows) \/ (exists f, fresh_frame env st f).

(** The frame is the directory, or there is none. *)
Definition plain (df : option StockFrame) : Prop :=
  match df with
  | Some (Foreign _) => False
  | _ => True
  end.





(** The fetch from the API, as [_get_stock_basic] runs it after a cache
    miss. *)
Definition fetch_outcome (api : ProApi) (env : Env) (st : St)
  : Result (option StockFrame) * St :=
  let called := mkSt (disk st) (calls st ++ [CallStockBasic]) in
  match stock_basic api with
  | Returns (Some (r :: rows)) =>
      (Ok (Some (Rows (r :: rows))),
       if cache_writable env
       then mkSt (<[ "stock_basic" := Stored (Some (time_now env)) (JRows (r :: rows)) ]>
                    (disk st)) (calls st ++ [CallStockBasic])
       else called)
  | _ => (Ok None, called)
  end.


(** Sample directory and services. *)
Definition pudong : DirectoryEntry := mkEntry "600000.SH" "600000" "Pudong Bank".
Definition pingan : DirectoryEntry := mkEntry "000001.SZ" "000001" "Ping An Bank".

Definition api_up : ProApi :=
  mkPro (Returns (Some [pudong; pingan])) (fun _ _ => Returns None).


Definition env0 : Env := mkEnv (inject_Z 1700100000) "2023-11-16 02:00:00" true.

(** A snapshot written two days before [env0]. *)
Definition stale_disk : gmap string CacheDoc :=
  {[ DIRECTORY_KEY := Stored (Some (inject_Z 1699927200)) (JRows [pudong]) ]}.

(** A snapshot written one hour before [env0]. *)
Definition fresh_disk : gmap string CacheDoc :=
  {[ DIRECTORY_KEY := Stored (Some (inject_Z 1700096400)) (JRows [pudong]) ]}.




End DirectorySpec.

(* ===================================================================== *)
(** ** Requests by name, as the specification speaks of them              *)
(* ===================================================================== *)

Module RequestSpec.
Import Tushare DirectorySpec.

(** A name as a caller writes it between commas: no comma in it, and not
    blank. *)
Definition proper_name `{Str : StrMethods} (n : string) : Prop :=
  contains_char "," n = false /\ strip n <> "".



(** 51 names. *)
Definition fifty_one_names : string := join "," (replicate 51 "A").

End RequestSpec.

(* ===================================================================== *)
(** ** Response envelopes, as the specification speaks of them            *)
(* ===================================================================== *)

Module EnvelopeSpec.
Import Tushare DirectorySpec.






End EnvelopeSpec.

(* ===================================================================== *)
(** ** Rankings, as the specification speaks of them                      *)
(* ===================================================================== *)

Module RankingSpec.
Import Tushare.

(** Two sort keys in the requested direction, a null key after every
    other. *)
Definition in_order (ascending : bool) (a b : cell) : Prop :=
  match a, b with
  | _, CNull => True
  | CNull, _ => False
  | CNum x, CNum y => if ascending then (x <= y)%Q else (y <= x)%Q
  | CStr x, CStr y =>
      if ascending then String.leb x y = true else String.leb y x = true
  | _, _ => False
  end.

Definition row_order (by_ : string) (ascending : bool)
    (r1 r2 : gmap string cell) : Prop :=
  in_order ascending (sort_key by_ r1) (sort_key by_ r2).

(** Records sorted by a field in a direction, those without a value
    last: every record is in order with every later one. *)
Definition sorted_by (by_ : string) (ascending : bool)
    (records : list (gmap string cell)) : Prop :=
  StronglySorted (row_order by_ ascending) records.

(** The keys of the rows that have one, in a frame. *)
Definition present_keys (by_ : string) (df : Frame) : list cell :=
  map (sort_key by_)
      (filter (fun r => negb (is_null (sort_key by_ r))) (rows df)).

(** The records an envelope returns. *)
Definition records_of (e : Envelope (list (gmap string cell)))
  : list (gmap string cell) :=
  default [] (data e).

(** A cell is a number ([num = true]) or a text ([num = false]). *)
Definition has_kind (num : bool) (c : cell) : Prop :=
  match c with
  | CNum _ => num = true
  | CStr _ => num = false
  | CNull => False
  end.

(** The records an operation returned, none when it raised. *)
Definition returned_records
    (out : Result (Envelope (list (gmap string cell))) * St)
  : list (gmap string cell) :=
  match out.1 with
  | Ok e => records_of e
  | Raise _ => []
  end.

(** C5 as the specification words it. *)
Definition ranking_as_worded : Prop :=
  forall (self : TushareRealtimeService) (env : Env) (src : string)
         (top_n : Z) (sort_by : string) (ascending : bool) (st st1 : St)
         (snapshot : Envelope (list (gmap string cell))),
    _get_realtime_list self env src st = (Ok snapshot, st1) ->
    success snapshot = true ->
    exists e,
      (get_realtime_list_top self env src top_n sort_by ascending st).1 = Ok e /\
      Z.of_nat (length (records_of e)) <= top_n /\
      (sort_by ∈ columns (DataFrame (records_of snapshot)) ->
         success e = true /\ sorted_by sort_by ascending (records_of e)) /\
      (sort_by ∉ columns (DataFrame (records_of snapshot)) ->
         success e = true).

(** Sample market snapshots. *)
Definition quote_row (code : string) (pct : ucell) : gmap string ucell :=
  <[ "ts_code" := UObj code ]> {[ "pct_change" := pct ]}.

Definition market : list (gmap string ucell) :=
  [ quote_row "000001.SZ" (UNum (3 # 2));
    quote_row "600000.SH" UNa;
    quote_row "600519.SH" (UNum (-1 # 2));
    quote_row "000002.SZ" (UNum (5 # 1)) ].

(** A suspended stock reported with a dash in a numeric column. *)
Definition market_with_dash : list (gmap string ucell) :=
  [ quote_row "000001.SZ" (UNum (3 # 2));
    quote_row "600000.SH" (UObj "-") ].

Definition crawler (frame : list (gmap string ucell)) : TsModule :=
  mkTs (fun _ _ => Returns None) (fun _ _ => Returns None)
       (fun _ => Returns (Some frame)).

Definition env1 : Env := mkEnv (inject_Z 1700100000) "2023-11-16 02:00:00" true.

Definition st0 : St := mkSt ∅ [].

End RankingSpec.

(** Looks a literal key up in a metadata dict display. *)
Ltac lookup_key :=
  repeat (rewrite lookup_insert_ne by discriminate);
  first [ rewrite lookup_insert_eq | rewrite lookup_singleton_eq
        | rewrite lookup_singleton_ne by discriminate ].

(* ===================================================================== *)
(** ** finnhub_service.py: the one-call operations                        *)
(* ===================================================================== *)

Module FinnhubCalls.
Import Finnhub.

(** The endpoints of [finnhub.Client] the remaining operations call, as
    functions of their arguments ([limit] where the source passes one). *)
Record Endpoints : Type := mkEndpoints {
  filings : string -> string -> string -> ApiResult;
  stock_insider_transactions : string -> string -> string -> ApiResult;
  ownership : string -> Z -> ApiResult;
  fund_ownership : string -> Z -> ApiResult;
  news_sentiment : string -> ApiResult;
  stock_social_sentiment : string -> ApiResult;
  stock_insider_sentiment : string -> string -> string -> ApiResult;
  upgrade_downgrade : string -> string -> string -> ApiResult;
  pattern_recognition : string -> string -> ApiResult;
  support_resistance : string -> string -> ApiResult;
  aggregate_indicator : string -> string -> ApiResult
}.

Definition symbol_resolution_meta (symbol resolution : string)
  : gmap string pyval :=
  <[ "resolution" := PyStr resolution ]> (symbol_meta symbol).

(** [_fetch_sec_filings(self, symbol, start_date, end_date)] *)
Definition _fetch_sec_filings (self : FinnhubService) (ep : Endpoints)
    (now : Clock) (symbol start_date end_date : string)
  : Result (Envelope pyval) :=
  _ ← client_attr self;
  let data := _safe_api_call self (filings ep symbol start_date end_date) in
  Ok (_format_response now data
        (Some (symbol_period_meta symbol start_date end_date))).

(** [_fetch_insider_transactions(self, symbol, start_date, end_date)] *)
Definition _fetch_insider_transactions (self : FinnhubService) (ep : Endpoints)
    (now : Clock) (symbol start_date end_date : string)
  : Result (Envelope pyval) :=
  _ ← client_attr self;
  let data := _safe_api_call self
                (stock_insider_transactions ep symbol start_date end_date) in
  Ok (_format_response now data
        (Some (symbol_period_meta symbol start_date end_date))).

(** [_fetch_institutional_ownership(self, symbol, start_date, end_date)]:
    the dates go into the metadata only. *)
Definition _fetch_institutional_ownership (self : FinnhubService)
    (ep : Endpoints) (now : Clock) (symbol start_date end_date : string)
  : Result (Envelope pyval) :=
  _ ← client_attr self;
  let data := _safe_api_call self (ownership ep symbol 10) in
  Ok (_format_response now data
        (Some (symbol_period_meta symbol start_date end_date))).

(** [_fetch_fund_ownership(self, symbol)] *)
Definition _fetch_fund_ownership (self : FinnhubService) (ep : Endpoints)
    (now : Clock) (symbol : string) : Result (Envelope pyval) :=
  _ ← client_attr self;
  let data := _safe_api_call self (fund_ownership ep symbol 10) in
  Ok (_format_response now data (Some (symbol_meta symbol))).

(** [_fetch_news_sentiment(self, symbol)] *)
Definition _fetch_news_sentiment (self : FinnhubService) (ep : Endpoints)
    (now : Clock) (symbol : string) : Result (Envelope pyval) :=
  _ ← client_attr self;
  let data := _safe_api_call self (news_sentiment ep symbol) in
  Ok (_format_response now data (Some (symbol_meta symbol))).

(** [_fetch_social_sentiment(self, symbol)] *)
Definition _fetch_social_sentiment (self : FinnhubService) (ep : Endpoints)
    (now : Clock) (symbol : string) : Result (Envelope pyval) :=
  _ ← client_attr self;
  let data := _safe_api_call self (stock_social_sentiment ep symbol) in
  Ok (_format_response now data (Some (symbol_meta symbol))).

(** [_fetch_insider_sentiment(self, symbol, start_date, end_date)] *)
Definition _fetch_insider_sentiment (self : FinnhubService) (ep : Endpoints)
    (now : Clock) (symbol start_date end_date : string)
  : Result (Envelope pyval) :=
  _ ← client_attr self;
  let data := _safe_api_call self
                (stock_insider_sentiment ep symbol start_date end_date) in
  Ok (_format_response now data
        (Some (symbol_period_meta symbol start_date end_date))).

(** [_fetch_upgrade_downgrade(self, symbol, start_date, end_date)] *)
Definition _fetch_upgrade_downgrade (self : FinnhubService) (ep : Endpoints)
    (now : Clock) (symbol start_date end_date : string)
  : Result (Envelope pyval) :=
  _ ← client_attr self;
  let data := _safe_api_call self
                (upgrade_downgrade ep symbol start_date end_date) in
  Ok (_format_response now data
        (Some (symbol_period_meta symbol start_date end_date))).

(** [_fetch_pattern_recognition(self, symbol, resolution='D')] *)
Definition _fetch_pattern_recognition (self : FinnhubService) (ep : Endpoints)
    (now : Clock) (symbol resolution : string) : Result (Envelope pyval) :=
  _ ← client_attr self;
  let data := _safe_api_call self (pattern_recognition ep symbol resolution) in
  Ok (_format_response now data
        (Some (symbol_resolution_meta symbol resolution))).

(** [_fetch_support_resistance(self, symbol, resolution='D')] *)
Definition _fetch_support_resistance (self : FinnhubService) (ep : Endpoints)
    (now : Clock) (symbol resolution : string) : Result (Envelope pyval) :=
  _ ← client_attr self;
  let data := _safe_api_call self (support_resistance ep symbol resolution) in
  Ok (_format_response now data
        (Some (symbol_resolution_meta symbol resolution))).

(** [_fetch_aggregate_indicator(self, symbol, resolution='D')] *)
Definition _fetch_aggregate_indicator (self : FinnhubService) (ep : Endpoints)
    (now : Clock) (symbol resolution : string) : Result (Envelope pyval) :=
  _ ← client_attr self;
  let data := _safe_api_call self (aggregate_indicator ep symbol resolution) in
  Ok (_format_response now data
        (Some (symbol_resolution_meta symbol resolution))).


(** What one upstream call leaves in a field: its value, or [None] when it
    raised. *)
Definition outcome_value (call : ApiResult) : pyval :=
  match call with
  | ApiReturns v => v
  | ApiRaises _ => PyNone
  end.

(** The three answers of a one-call operation: a failure without data when
    the call raised or returned [None]; else a success carrying the value
    as it came, [found] telling whether the value is true. *)
Definition one_call_answer (call : ApiResult) (r : Result (Envelope pyval))
  : Prop :=
  exists e, r = Ok e /\
    match outcome_value call with
    | PyNone =>
        success e = false /\ data e = None /\ found e = None /\
        error e = Some "No data returned or API error"
    | v =>
        success e = true /\ data e = Some v /\ found e = Some (truthy v) /\
        error e = None
    end.

(** The call behind a field of a category's data, by the field's name. *)
Fixpoint field_call (k : string) (fields : list (string * ApiResult))
  : option ApiResult :=
  match fields with
  | [] => None
  | (k', call) :: rest => if decide (k' = k) then Some call else field_call k rest
  end.

(** The answer of a category method whose data has the given fields: a
    success that counts as found, whose data holds, for each field, what
    the field's call left. *)
Definition category_answer (fields : list (string * ApiResult))
    (r : Result (Envelope pyval)) : Prop :=
  exists e d,
    r = Ok e /\ success e = true /\ found e = Some true /\ error e = None /\
    data e = Some (PyDict d) /\
    forall k, d !! k = outcome_value <$> field_call k fields.

(** The operation does not answer: reading the endpoint off a client
    that is [None] raises [AttributeError]. *)
Definition raises_attribute_error {A : Type} (r : Result A) : Prop :=
  exists msg, r = Raise (AttributeError msg).

End FinnhubCalls.

(* ===================================================================== *)
(** ** Dates in calendar order                                            *)
(* ===================================================================== *)

Module CalendarSpec.

(** One date is earlier than another: the order of the calendar. *)
Definition earlier (a b : Z * Z * Z) : Prop :=
  let '(y1, m1, d1) := a in
  let '(y2, m2, d2) := b in
  y1 < y2 \/ (y1 = y2 /\ (m1 < m2 \/ (m1 = m2 /\ d1 < d2))).

End CalendarSpec.

(* ===================================================================== *)
(** ** The directory cache, as the service itself leaves it               *)
(* ===================================================================== *)

Module CacheSpec.
Import Tushare DirectorySpec.



(** A later moment, [seconds] after [env]. *)
Definition later (seconds : Z) (env : Env) : Env :=
  mkEnv (time_now env + inject_Z seconds)%Q (strftime_now env) (cache_writable env).

End CacheSpec.

(* ===================================================================== *)
(** ** Look-ups in the directory                                          *)
(* ===================================================================== *)

Module ResolveSpec.
Import Tushare DirectorySpec.





End ResolveSpec.

(* ===================================================================== *)
(** ** Requests by name                                                   *)
(* ===================================================================== *)

Module ByNameSpec.
Import Tushare DirectorySpec.






(** The request is answered with a failure envelope and the state is
    left as it was: no upstream call, nothing written. *)
Definition refused (out : Result Response * St) (st : St) : Prop :=
  exists msg, out = (Ok (failure msg), st).



End ByNameSpec.

(* ===================================================================== *)
(** ** Minute bars                                                        *)
(* ===================================================================== *)

Module MinuteSpec.
Import Tushare DirectorySpec ResolveSpec.




End MinuteSpec.
(* ===================================================================== *)
(** ** The aggregator of the US-equities service                          *)
(* ===================================================================== *)

Section Aggregator.
Import Finnhub AggregatorSpec.

Lemma lookup_merge_category (key k : string) (res : Envelope pyval)
    (raw_data : gmap string pyval) :
  merge_category key res raw_data !! k =
    if decide (key = k)
    then (if success res then Some (get_data res) else raw_data !! k)
    else raw_data !! k.
Proof.
  unfold merge_category.
  destruct (success res), (decide (key = k)) as [->|Hne]; auto.
  - apply lookup_insert_eq.
  - apply lookup_insert_ne; assumption.
Qed.

Lemma format_response_success (now : Clock) (d : pyval)
    (meta : option (gmap string pyval)) :
  success (_format_response now d meta) = negb (is_none d).
Proof. unfold _format_response. destruct (is_none d); reflexivity. Qed.

Lemma format_response_dict (now : Clock) (m : gmap string pyval)
    (meta : option (gmap string pyval)) :
  success (_format_response now (PyDict m) meta) = true /\
  data (_format_response now (PyDict m) meta) = Some (PyDict m).
Proof. split; reflexivity. Qed.

(** C1.  Whenever the aggregation returns, its envelope has
    [success = true] and its data is the merged map; the merged map has a
    category's key exactly when that category's own fetch returned an
    envelope with [success = true], it has no other key, and it is empty
    when all five categories failed. *)
Theorem C1_merged_key_iff_category_success
    (F : CategoryFetchers) (now : Clock) (symbol start_date end_date : string)
    (env : Envelope pyval) :
  get_all_stock_info_with F now symbol start_date end_date = Ok env ->
  success env = true /\
  exists merged : gmap string pyval,
    data env = Some (PyDict merged) /\
    (is_Some (merged !! "company_profile") <->
       reported_success (fetch_company_profile F symbol)) /\
    (is_Some (merged !! "market_data") <->
       reported_success (fetch_market_data F symbol start_date end_date)) /\
    (is_Some (merged !! "financials") <->
       reported_success (fetch_financials F symbol start_date end_date)) /\
    (is_Some (merged !! "analysis") <->
       reported_success (fetch_estimates_and_analysis F symbol start_date end_date)) /\
    (is_Some (merged !! "sentiment") <->
       reported_success (fetch_sentiment_and_news F symbol start_date end_date)) /\
    (forall k : string, is_Some (merged !! k) -> k ∈ CATEGORY_KEYS) /\
    (~ reported_success (fetch_company_profile F symbol) ->
     ~ reported_success (fetch_market_data F symbol start_date end_date) ->
     ~ reported_success (fetch_financials F symbol start_date end_date) ->
     ~ reported_success (fetch_estimates_and_analysis F symbol start_date end_date) ->
     ~ reported_success (fetch_sentiment_and_news F symbol start_date end_date) ->
     merged = ∅).
Proof.
  unfold get_all_stock_info_with, reported_success.
  destruct (fetch_company_profile F symbol) as [r1|e1]; [|discriminate].
  destruct (fetch_market_data F symbol start_date end_date) as [r2|e2];
    [|discriminate].
  destruct (fetch_financials F symbol start_date end_date) as [r3|e3];
    [|discriminate].
  destruct (fetch_estimates_and_analysis F symbol start_date end_date) as [r4|e4];
    [|discriminate].
  destruct (fetch_sentiment_and_news F symbol start_date end_date) as [r5|e5];
    [|discriminate].
  cbn [mbind result_bind rbind]. intros [= <-].
  split; [reflexivity|].
  eexists. split; [reflexivity|].
  assert (Hrs : forall r : Envelope pyval,
             (exists res, Ok r = Ok res /\ success res = true) <-> success r = true).
  { intros r. split; [intros (res & [= <-] & H); exact H | eauto]. }
  rewrite !Hrs.
  repeat split.
  1-10: rewrite !lookup_merge_category, lookup_empty;
        repeat case_decide; try congruence;
        destruct (success r1), (success r2), (success r3), (success r4),
                 (success r5);
        intros Hk; try discriminate Hk; try reflexivity;
        first [ (eexists; reflexivity) | inversion Hk; discriminate ].
  - intros k. rewrite !lookup_merge_category, lookup_empty.
    unfold CATEGORY_KEYS.
    repeat case_decide; subst; rewrite ?elem_of_cons; try tauto.
    intros [? Hk]; discriminate Hk.
  - intros H1 H2 H3 H4 H5. unfold merge_category.
    destruct (success r1); [exfalso; auto|].
    destruct (success r2); [exfalso; auto|].
    destruct (success r3); [exfalso; auto|].
    destruct (success r4); [exfalso; auto|].
    destruct (success r5); [exfalso; auto|].
    reflexivity.
Qed.

Lemma C1_all_categories_fail_witness :
  exists env : Envelope pyval,
    get_all_stock_info_with AggregatorSpec.failing_fetchers AggregatorSpec.clock
      "AAPL" "2024-01-01" "2024-01-31" = Ok env /\
    success env = true /\ data env = Some (PyDict ∅).
Proof.
  eexists. split; [reflexivity|].
  destruct (C1_merged_key_iff_category_success AggregatorSpec.failing_fetchers
              AggregatorSpec.clock "AAPL" "2024-01-01" "2024-01-31" _ eq_refl)
    as (Hs & merged & Hd & _ & _ & _ & _ & _ & _ & Hempty).
  split; [exact Hs|].
  rewrite Hd. do 2 f_equal.
  apply Hempty; intros (r & Hr & Hsucc); cbn in Hr;
    unfold AggregatorSpec.failed in Hr; injection Hr as <-; discriminate Hsucc.
Defined.

(** Each category method of the service itself wraps a dict, which is never
    [None]: with a client, every category reports success, whatever the
    upstream does, and the merged report has all five keys. *)
Lemma real_categories_always_succeed (c : Client) (now : Clock)
    (symbol start_date end_date : string) :
  let self := mkService (Some c) in
  reported_success (_get_company_profile self now symbol) /\
  reported_success (_get_market_data self now symbol start_date end_date) /\
  reported_success (_get_financials self now symbol start_date end_date) /\
  reported_success (_get_estimates_and_analysis self now symbol start_date end_date) /\
  reported_success (_get_sentiment_and_news self now symbol start_date end_date).
Proof.
  cbv zeta. unfold reported_success.
  repeat split; eexists; (split; reflexivity).
Qed.

(** The aggregator of the service is the body above at the service's own
    category methods. *)
Lemma get_all_stock_info_instance (self : FinnhubService) (now : Clock)
    (symbol start_date end_date : string) :
  _get_all_stock_info self now symbol start_date end_date =
  get_all_stock_info_with (methods self now) now symbol start_date end_date.
Proof. reflexivity. Qed.

(** Without a client, reading the endpoint off [self.client] raises, and
    the aggregation raises with it. *)
Lemma no_client_raises (now : Clock) (symbol start_date end_date : string) :
  exists e, _get_all_stock_info (mkService None) now symbol start_date end_date
            = Raise e.
Proof. eexists. reflexivity. Qed.

End Aggregator.

(* ===================================================================== *)
(** ** Date conversion                                                    *)
(* ===================================================================== *)

Section DateExamples.
Import Finnhub DateSpec.
#[local] Existing Instance ascii_methods.

Example ts_epoch : _date_to_timestamp "1970-01-01" false = Ok 0.
Proof. reflexivity. Qed.

Example ts_2000 : _date_to_timestamp "2000-01-01" false = Ok 946684800.
Proof. reflexivity. Qed.

Example ts_leap_day_end : _date_to_timestamp "2024-02-29" true = Ok 1709251199.
Proof. reflexivity. Qed.

Example ts_no_such_day : _date_to_timestamp "2023-02-29" false = Ok 0.
Proof. reflexivity. Qed.

Example ts_not_a_date : _date_to_timestamp "yesterday" true = Ok 0.
Proof. reflexivity. Qed.

Example ts_trailing_text : _date_to_timestamp "2024-01-05T10:00" false = Ok 0.
Proof. reflexivity. Qed.

Example ts_unpadded : _date_to_timestamp "2024-1-5" false = Ok 1704412800.
Proof. reflexivity. Qed.

Example ts_space_padded_day :
  _date_to_timestamp "2024-01- 5" false = Ok 1704412800.
Proof. reflexivity. Qed.

Example ts_month_13 : _date_to_timestamp "2024-13-01" false = Ok 0.
Proof. reflexivity. Qed.

Example ts_trailing_blank : _date_to_timestamp "2024-01-05 " false = Ok 0.
Proof. reflexivity. Qed.

Example ts_year_0 : _date_to_timestamp "0000-01-01" false = Ok 0.
Proof. reflexivity. Qed.

Example ts_first_day : _date_to_timestamp "0001-01-01" false = Ok (-62135596800).
Proof. reflexivity. Qed.

Example ts_last_day : _date_to_timestamp "9999-12-31" false = Ok 253402214400.
Proof. reflexivity. Qed.

End DateExamples.

Section Dates.
Import Finnhub DateSpec.
Context `{Str : StrMethods}.

Lemma digit_char_spec (k : Z) :
  0 <= k <= 9 -> is_digit (digit_char k) = true /\ digit_val (digit_char k) = k.
Proof.
  intros Hk.
  assert (E : k = 0 \/ k = 1 \/ k = 2 \/ k = 3 \/ k = 4 \/ k = 5 \/ k = 6
              \/ k = 7 \/ k = 8 \/ k = 9) by lia.
  repeat (destruct E as [->|E]; [split; reflexivity|]); subst k; split; reflexivity.
Qed.

Lemma digit_char_ascii (k : Z) : 0 <= k <= 9 -> is_ascii (digit_char k) = true.
Proof.
  intros Hk.
  assert (E : k = 0 \/ k = 1 \/ k = 2 \/ k = 3 \/ k = 4 \/ k = 5 \/ k = 6
              \/ k = 7 \/ k = 8 \/ k = 9) by lia.
  repeat (destruct E as [->|E]; [reflexivity|]); subst k; reflexivity.
Qed.

(** An ASCII digit at the front of a text is read as the decimal digit it
    is, whatever the tables. *)
Lemma decimal_digit_char (k : Z) (rest : string) :
  0 <= k <= 9 -> decimal (String (digit_char k) rest) = Some (k, rest).
Proof.
  intros Hk. rewrite decimal_ascii by (apply digit_char_ascii; exact Hk).
  unfold ascii_decimal. destruct (digit_char_spec k Hk) as [-> ->]. reflexivity.
Qed.

(** On ASCII text, the parse is that of the ASCII methods. *)
Lemma decimal_on_ascii (s : string) :
  ascii_text s = true ->
  decimal s = ascii_decimal s /\
  forall v rest, ascii_decimal s = Some (v, rest) -> ascii_text rest = true.
Proof.
  destruct s as [|c s]; cbn [ascii_text].
  - intros _. split; [apply decimal_empty|discriminate].
  - intros H. apply andb_prop in H as [Hc Hs]. split.
    + apply decimal_ascii. exact Hc.
    + unfold ascii_decimal. destruct (is_digit c); [|discriminate].
      intros v rest [= _ <-]. exact Hs.
Qed.

Lemma parse_Y_pad4 (y : Z) (rest : string) :
  0 <= y <= 9999 -> parse_Y (pad4 y +:+ rest) = Some (y, rest).
Proof.
  intros Hy. unfold pad4, pad2. cbv [String.append parse_Y].
  rewrite !decimal_digit_char by (Z.div_mod_to_equations; lia).
  do 2 f_equal. Z.div_mod_to_equations. lia.
Qed.

Lemma parse_m_pad2 (m : Z) (rest : string) :
  1 <= m <= 12 ->
  parse_m (pad2 m +:+ String "-" rest) = Some (m, String "-" rest).
Proof.
  intros Hm.
  assert (E : m = 1 \/ m = 2 \/ m = 3 \/ m = 4 \/ m = 5 \/ m = 6 \/ m = 7
              \/ m = 8 \/ m = 9 \/ m = 10 \/ m = 11 \/ m = 12) by lia.
  repeat (destruct E as [->|E]; [reflexivity|]); subst m; reflexivity.
Qed.

Lemma parse_d_pad2 (d : Z) :
  1 <= d <= 31 -> parse_d (pad2 d) = Some (d, EmptyString).
Proof.
  intros Hd.
  assert (E : exists n : nat, (n < 31)%nat /\ d = 1 + Z.of_nat n).
  { exists (Z.to_nat (d - 1)). lia. }
  destruct E as (n & Hn & ->).
  do 31 (destruct n as [|n];
         [cbv [pad2 parse_d]; cbn -[decimal];
          rewrite ?(decimal_digit_char 0), ?(decimal_digit_char 1),
            ?(decimal_digit_char 2), ?(decimal_digit_char 3),
            ?(decimal_digit_char 4), ?(decimal_digit_char 5),
            ?(decimal_digit_char 6), ?(decimal_digit_char 7),
            ?(decimal_digit_char 8), ?(decimal_digit_char 9) by lia;
          reflexivity|]).
  lia.
Qed.

Lemma days_in_month_le_31 (y m : Z) : _days_in_month y m <= 31.
Proof.
  unfold _days_in_month, _DAYS_IN_MONTH.
  repeat match goal with |- context [if ?b then _ else _] => destruct b end; lia.
Qed.

(** Every well-formed date parses to itself. *)
Lemma strptime_iso_date (y m d : Z) :
  valid_date y m d -> strptime_Ymd (iso_date y m d) = Ok (y, m, d).
Proof.
  intros (Hy & Hm & Hd). unfold strptime_Ymd, iso_date.
  rewrite parse_Y_pad4 by lia.
  change (parse_dash ("-" +:+ pad2 m +:+ "-" +:+ pad2 d))
    with (Some (pad2 m +:+ "-" +:+ pad2 d)). cbv iota.
  change (pad2 m +:+ "-" +:+ pad2 d) with (pad2 m +:+ String "-" (pad2 d)).
  rewrite parse_m_pad2 by lia.
  change (parse_dash (String "-" (pad2 d))) with (Some (pad2 d)). cbv iota.
  pose proof (days_in_month_le_31 y m).
  rewrite parse_d_pad2 by lia.
  unfold check_date_fields.
  repeat match goal with
         | |- context [?a <=? ?b] =>
             destruct (Z.leb_spec a b); [|lia]
         end.
  reflexivity.
Qed.

(** What [strptime] accepts is a valid date. *)
Lemma strptime_valid (s : string) (y m d : Z) :
  strptime_Ymd s = Ok (y, m, d) -> valid_date y m d.
Proof.
  unfold strptime_Ymd.
  destruct (parse_Y s) as [[y' r1]|]; [|discriminate].
  destruct (parse_dash r1) as [r2|]; [|discriminate].
  destruct (parse_m r2) as [[m' r3]|]; [|discriminate].
  destruct (parse_dash r3) as [r4|]; [|discriminate].
  destruct (parse_d r4) as [[d' r5]|]; [|discriminate].
  destruct r5; [|discriminate].
  destruct (check_date_fields y' m' d') eqn:Hc; [|discriminate].
  intros [= <- <- <-]. unfold check_date_fields in Hc.
  repeat (apply andb_prop in Hc; destruct Hc as [Hc ?]).
  unfold valid_date. rewrite <- !Z.leb_le. auto.
Qed.

Lemma is_leap_spec (y : Z) :
  _is_leap y = true <->
  y mod 4 = 0 /\ (y mod 100 <> 0 \/ y mod 400 = 0).
Proof.
  unfold _is_leap.
  destruct (Z.eqb_spec (y mod 4) 0), (Z.eqb_spec (y mod 100) 0),
    (Z.eqb_spec (y mod 400) 0); cbn; intuition congruence.
Qed.

(** The day count of [datetime] agrees with the civil-calendar formula. *)
Lemma ymd2ord_days_from_civil (y m d : Z) :
  1 <= y -> 1 <= m <= 12 ->
  _ymd2ord y m d - _ymd2ord 1970 1 1 = days_from_civil y m d.
Proof.
  intros Hy Hm.
  change (_ymd2ord 1970 1 1) with 719163.
  assert (E : m = 1 \/ m = 2 \/ m = 3 \/ m = 4 \/ m = 5 \/ m = 6 \/ m = 7
              \/ m = 8 \/ m = 9 \/ m = 10 \/ m = 11 \/ m = 12) by lia.
  unfold _ymd2ord, _days_before_month, _days_before_year, days_from_civil.
  pose proof (is_leap_spec y) as Hl.
  destruct (_is_leap y);
    [assert (Hl' : y mod 4 = 0 /\ (y mod 100 <> 0 \/ y mod 400 = 0))
       by (apply Hl; reflexivity)
    |assert (Hl' : ~ (y mod 4 = 0 /\ (y mod 100 <> 0 \/ y mod 400 = 0)))
       by (intros C; apply Hl in C; discriminate)];
    clear Hl;
    repeat (destruct E as [->|E];
            [vm_compute (_DAYS_BEFORE_MONTH _); cbn -[Z.div Z.mul Z.add Z.sub];
             Z.div_mod_to_equations; lia|]);
    subst m; vm_compute (_DAYS_BEFORE_MONTH _); cbn -[Z.div Z.mul Z.add Z.sub];
    Z.div_mod_to_equations; lia.
Qed.

Lemma strptime_raises_value_error (s : string) (e : exn) :
  strptime_Ymd s = Raise e -> exists msg, e = ValueError msg.
Proof.
  unfold strptime_Ymd.
  destruct (parse_Y s) as [[y r1]|]; [|intros [= <-]; eauto].
  destruct (parse_dash r1) as [r2|]; [|intros [= <-]; eauto].
  destruct (parse_m r2) as [[m r3]|]; [|intros [= <-]; eauto].
  destruct (parse_dash r3) as [r4|]; [|intros [= <-]; eauto].
  destruct (parse_d r4) as [[d r5]|]; [|intros [= <-]; eauto].
  destruct r5; [|intros [= <-]; eauto].
  destruct (check_date_fields y m d); [discriminate|intros [= <-]; eauto].
Qed.

Lemma date_to_timestamp_accepted (s : string) (end_of_day : bool) (y m d : Z) :
  strptime_Ymd s = Ok (y, m, d) ->
  _date_to_timestamp s end_of_day = Ok (unix_timestamp y m d end_of_day).
Proof.
  intros Hs. pose proof (strptime_valid _ _ _ _ Hs) as (Hy & Hm & _).
  unfold _date_to_timestamp, unix_timestamp, utc_timestamp. rewrite Hs.
  rewrite <- (ymd2ord_days_from_civil y m d) by lia.
  destruct end_of_day; f_equal; lia.
Qed.

Lemma iso_date_length (y m d : Z) : String.length (iso_date y m d) = 10%nat.
Proof. reflexivity. Qed.

(** C9, amended.  The conversion never raises.  It returns 0 for every
    text [strptime] rejects; every text [strptime] accepts denotes a valid
    date and yields the UTC Unix timestamp of that date, 23:59:59 of the day
    when [end_of_day] is set; and every well-formed [YYYY-MM-DD] date is
    accepted as the date it spells. *)
Theorem C9_date_to_timestamp_by_strptime (s : string) (end_of_day : bool) :
  (exists t, _date_to_timestamp s end_of_day = Ok t) /\
  (forall e, strptime_Ymd s = Raise e -> _date_to_timestamp s end_of_day = Ok 0) /\
  (forall y m d, strptime_Ymd s = Ok (y, m, d) ->
     valid_date y m d /\
     _date_to_timestamp s end_of_day = Ok (unix_timestamp y m d end_of_day)) /\
  (forall y m d, valid_date y m d -> s = iso_date y m d ->
     strptime_Ymd s = Ok (y, m, d) /\
     _date_to_timestamp s end_of_day = Ok (unix_timestamp y m d end_of_day)).
Proof.
  assert (Hrej : forall e, strptime_Ymd s = Raise e ->
                   _date_to_timestamp s end_of_day = Ok 0).
  { intros e He. destruct (strptime_raises_value_error s e He) as (msg & ->).
    unfold _date_to_timestamp. rewrite He. reflexivity. }
  split; [|split; [exact Hrej|split]].
  - destruct (strptime_Ymd s) as [[[y m] d]|e] eqn:Hs.
    + eexists. apply date_to_timestamp_accepted. exact Hs.
    + eexists. apply (Hrej e). reflexivity.
  - intros y m d Hs. split.
    + eapply strptime_valid; eassumption.
    + apply date_to_timestamp_accepted; assumption.
  - intros y m d Hv ->. split.
    + apply strptime_iso_date; assumption.
    + apply date_to_timestamp_accepted, strptime_iso_date; assumption.
Qed.

End Dates.

(** The conversion on sample texts.  The texts are ASCII, on which every
    [StrMethods] agrees with [ascii_methods]. *)
Section DateConversionExamples.
Import Finnhub DateSpec.
#[local] Existing Instance ascii_methods.

(** C9, counterexample.  ["2024-1-5"] is not in [YYYY-MM-DD] form, yet
    [strptime] accepts it and the conversion returns the timestamp of
    2024-01-05 and not 0: the claim as worded fails. *)
Lemma C9_unpadded_date_is_converted :
  ~ well_formed_date "2024-1-5" /\
  _date_to_timestamp "2024-1-5" false = Ok 1704412800 /\
  ~ malformed_gives_zero.
Proof.
  assert (Hnwf : ~ well_formed_date "2024-1-5").
  { intros (y & m & d & _ & Heq).
    apply (f_equal String.length) in Heq.
    rewrite iso_date_length in Heq. discriminate Heq. }
  repeat split.
  - exact Hnwf.
  - intros Hclaim. specialize (Hclaim "2024-1-5" false Hnwf).
    vm_compute in Hclaim. discriminate Hclaim.
Qed.

Lemma C9_date_to_timestamp_witness :
  _date_to_timestamp "not-a-date" true = Ok 0 /\
  _date_to_timestamp "2024-02-29" true = Ok (unix_timestamp 2024 2 29 true) /\
  _date_to_timestamp "2024-1-5" false = Ok (unix_timestamp 2024 1 5 false).
Proof.
  split; [|split].
  - apply (proj1 (proj2 (C9_date_to_timestamp_by_strptime "not-a-date" true))
             (ValueError "time data does not match format '%Y-%m-%d'")).
    reflexivity.
  - apply (proj2 (proj2 (proj2
             (C9_date_to_timestamp_by_strptime "2024-02-29" true)))
             2024 2 29).
    + repeat split; vm_compute; intros C; discriminate C.
    + reflexivity.
  - apply (proj1 (proj2 (proj2
             (C9_date_to_timestamp_by_strptime "2024-1-5" false)))
             2024 1 5).
    reflexivity.
Defined.

End DateConversionExamples.

(* ===================================================================== *)
(** ** Frequency validation                                               *)
(* ===================================================================== *)

Section Frequency.
Import Tushare.
Context `{Str : StrMethods}.

Lemma existsb_eqb_In (x : string) (l : list string) :
  existsb (String.eqb x) l = true <-> In x l.
Proof.
  rewrite existsb_exists. split.
  - intros (y & Hy & Heq). apply String.eqb_eq in Heq. subst. exact Hy.
  - intros H. exists x. split; [exact H|apply String.eqb_refl].
Qed.

Lemma validate_freq_accepts (freq : string) :
  In (upper freq) FREQ_OPTIONS -> _validate_freq freq = Ok (upper freq).
Proof.
  intros H. unfold _validate_freq.
  apply existsb_eqb_In in H. rewrite H. reflexivity.
Qed.

Lemma validate_freq_rejects (freq : string) :
  ~ In (upper freq) FREQ_OPTIONS ->
  _validate_freq freq =
    Raise (ValueError ("Invalid freq: " +:+ freq +:+
      ". Must be one of ['1MIN', '5MIN', '15MIN', '30MIN', '60MIN']")).
Proof.
  intros H. unfold _validate_freq.
  destruct (existsb (String.eqb (upper freq)) FREQ_OPTIONS) eqn:E.
  - apply existsb_eqb_In in E. contradiction.
  - reflexivity.
Qed.

Lemma upper_normal_form (f : string) :
  In f FREQ_OPTIONS -> upper f = f.
Proof.
  unfold FREQ_OPTIONS. cbn [In].
  intros [<-|[<-|[<-|[<-|[<-|[]]]]]];
    rewrite upper_ascii_text by reflexivity; reflexivity.
Qed.

(** C10.  A frequency whose uppercase form is one of 1MIN, 5MIN, 15MIN,
    30MIN, 60MIN is accepted and normalised to that form, and a minute-bar
    request made with it is the request made with the normal form; a
    frequency whose uppercase form is none of them is rejected with
    [ValueError]. *)
Theorem C10_validate_freq_case_insensitive (freq : string) :
  (In (upper freq) FREQ_OPTIONS ->
     _validate_freq freq = Ok (upper freq) /\
     forall self env ts_codes st,
       _get_realtime_minute self env ts_codes freq st =
       _get_realtime_minute self env ts_codes (upper freq) st) /\
  (~ In (upper freq) FREQ_OPTIONS ->
     exists msg, _validate_freq freq = Raise (ValueError msg)).
Proof.
  split.
  - intros H. split; [apply validate_freq_accepts; exact H|].
    intros self env ts_codes st. unfold _get_realtime_minute.
    rewrite (validate_freq_accepts freq H).
    rewrite (validate_freq_accepts (upper freq));
      rewrite (upper_normal_form _ H); [reflexivity|exact H].
  - intros H. eexists. apply validate_freq_rejects. exact H.
Qed.

End Frequency.

Section FrequencyExamples.
Import Tushare.
#[local] Existing Instance ascii_methods.

Example validate_5min : _validate_freq "5min" = Ok "5MIN".
Proof. reflexivity. Qed.

Example validate_mixed_case : _validate_freq "15Min" = Ok "15MIN".
Proof. reflexivity. Qed.

Example validate_2MIN :
  _validate_freq "2MIN" =
    Raise (ValueError
      "Invalid freq: 2MIN. Must be one of ['1MIN', '5MIN', '15MIN', '30MIN', '60MIN']").
Proof. reflexivity. Qed.

Lemma C10_lowercase_5min_witness :
  _validate_freq "5min" = Ok "5MIN" /\
  exists msg, _validate_freq "2min" = Raise (ValueError msg).
Proof.
  split.
  - refine (proj1 (proj1 (C10_validate_freq_case_insensitive "5min") _)).
    vm_compute. tauto.
  - apply (proj2 (C10_validate_freq_case_insensitive "2min")).
    vm_compute. intuition discriminate.
Defined.

End FrequencyExamples.

(* ===================================================================== *)
(** ** The symbol directory and its cache                                 *)
(* ===================================================================== *)

Section Directory.
Import Tushare DirectorySpec.
Local Open Scope m_scope.

Lemma Qlt_bool_iff (x y : Q) : Qlt_bool x y = true <-> (x < y)%Q.
Proof.
  unfold Qlt_bool. rewrite negb_true_iff.
  destruct (Qle_bool y x) eqn:E.
  - apply Qle_bool_iff in E. split; [discriminate|].
    intros H. exfalso. exact (Qlt_not_le _ _ H E).
  - split; [intros _|reflexivity].
    apply Qnot_le_lt. intros H. apply Qle_bool_iff in H. congruence.
Qed.

(** What [_load_cache] hands back for the directory key. *)
Lemma load_cache_fresh (env : Env) (st : St) (rows : list DirectoryEntry) :
  fresh_snapshot env st rows ->
  _load_cache env "stock_basic" st = (Ok (JRows rows), st).
Proof.
  intros (timestamp & Hd & _ & Hage). unfold _load_cache.
  unfold DIRECTORY_KEY in Hd. rewrite Hd.
  apply Qlt_bool_iff in Hage. unfold WINDOW in Hage.
  unfold cache_expire_hours. rewrite Hage. reflexivity.
Qed.

Lemma load_cache_frame (env : Env) (st : St) (f : ForeignFrame) :
  fresh_frame env st f ->
  _load_cache env "stock_basic" st = (Ok (JFrame f), st).
Proof.
  intros (timestamp & Hd & Hage). unfold _load_cache.
  unfold DIRECTORY_KEY in Hd. rewrite Hd.
  apply Qlt_bool_iff in Hage. unfold WINDOW in Hage.
  unfold cache_expire_hours. rewrite Hage. reflexivity.
Qed.

Lemma load_cache_total (env : Env) (key : string) (st : St) :
  exists data, _load_cache env key st = (Ok data, st).
Proof.
  unfold _load_cache.
  destruct (disk st !! key) as [[|timestamp data]|]; eauto.
  destruct (Qlt_bool _ _); eauto.
Qed.

Lemma load_cache_rows_inv (env : Env) (st : St) (r : DirectoryEntry)
    (rows : list DirectoryEntry) :
  _load_cache env "stock_basic" st = (Ok (JRows (r :: rows)), st) ->
  fresh_snapshot env st (r :: rows).
Proof.
  unfold _load_cache, fresh_snapshot, DIRECTORY_KEY.
  destruct (disk st !! "stock_basic") as [[|timestamp data]|]; try discriminate.
  destruct (Qlt_bool _ _) eqn:E; [|discriminate].
  intros [= ->]. exists timestamp. split; [reflexivity|]. split; [discriminate|].
  apply Qlt_bool_iff in E. exact E.
Qed.

Lemma load_cache_frame_inv (env : Env) (st : St) (f : ForeignFrame) :
  _load_cache env "stock_basic" st = (Ok (JFrame f), st) ->
  fresh_frame env st f.
Proof.
  unfold _load_cache, fresh_frame, DIRECTORY_KEY.
  destruct (disk st !! "stock_basic") as [[|timestamp data]|]; try discriminate.
  destruct (Qlt_bool _ _) eqn:E; [|discriminate].
  intros [= ->]. exists timestamp. split; [reflexivity|].
  apply Qlt_bool_iff in E. exact E.
Qed.

Lemma get_stock_basic_unfold (api : ProApi) (tsm : option TsModule)
    (env : Env) (st : St) (data : payload) :
  _load_cache env "stock_basic" st = (Ok data, st) ->
  _get_stock_basic (mkService (Some api) tsm) env st =
    match data with
    | JRows (r :: rows) => (Ok (Some (Rows (r :: rows))), st)
    | JFrame f => (Ok (Some (Foreign f)), st)
    | _ => fetch_outcome api env st
    end.
Proof.
  intros Hload. unfold _get_stock_basic. cbn [pro].
  unfold bind at 1. rewrite Hload.
  assert (Hfetch :
    try_except
      (do df <- call_upstream CallStockBasic (stock_basic api);
       match df with
       | Some (r :: rows) =>
           do _ <- _save_cache env "stock_basic" (r :: rows);
           ret (Some (Rows (r :: rows)))
       | _ => ret None
       end)
      (fun _ => ret None) st = fetch_outcome api env st).
  { unfold try_except, bind, call_upstream, fetch_outcome, _save_cache, ret.
    destruct (stock_basic api) as [msg|[[|r rows]|]]; cbn; try reflexivity.
    destruct (cache_writable env); reflexivity. }
  destruct data as [[|r rows]| | |f]; first [exact Hfetch | reflexivity].
Qed.

Lemma fresh_snapshot_unique (env : Env) (st : St)
    (rows rows' : list DirectoryEntry) :
  fresh_snapshot env st rows -> fresh_snapshot env st rows' -> rows = rows'.
Proof.
  intros (t & Hd & _) (t' & Hd' & _). rewrite Hd in Hd'. congruence.
Qed.

Lemma fresh_frame_unique (env : Env) (st : St) (f f' : ForeignFrame) :
  fresh_frame env st f -> fresh_frame env st f' -> f = f'.
Proof.
  intros (t & Hd & _) (t' & Hd' & _). rewrite Hd in Hd'. congruence.
Qed.

Lemma fresh_snapshot_not_frame (env : Env) (st : St)
    (rows : list DirectoryEntry) (f : ForeignFrame) :
  fresh_snapshot env st rows -> fresh_frame env st f -> False.
Proof.
  intros (t & Hd & _) (t' & Hd' & _). rewrite Hd in Hd'. discriminate Hd'.
Qed.

(** The three ways of a fetch on a service with its API object. *)
Lemma get_stock_basic_cases (api : ProApi) (tsm : option TsModule)
    (env : Env) (st : St) :
  (exists rows, fresh_snapshot env st rows /\
     _get_stock_basic (mkService (Some api) tsm) env st
       = (Ok (Some (Rows rows)), st)) \/
  (exists f, fresh_frame env st f /\
     _get_stock_basic (mkService (Some api) tsm) env st
       = (Ok (Some (Foreign f)), st)) \/
  (~ usable_cached_value env st /\
     _get_stock_basic (mkService (Some api) tsm) env st = fetch_outcome api env st).
Proof.
  destruct (load_cache_total env "stock_basic" st) as (data & Hload).
  rewrite (get_stock_basic_unfold api tsm env st data Hload).
  assert (Hmiss : usable_cached_value env st ->
                  (exists r rows', data = JRows (r :: rows')) \/
                  (exists f, data = JFrame f)).
  { intros [(rows & Hf)|(f & Hf)].
    - pose proof (load_cache_fresh _ _ _ Hf) as Hl.
      rewrite Hload in Hl. injection Hl as ->.
      destruct Hf as (_ & _ & Hne & _). destruct rows; [congruence|eauto].
    - pose proof (load_cache_frame _ _ _ Hf) as Hl.
      rewrite Hload in Hl. injection Hl as ->. eauto. }
  destruct data as [[|r rows]| | |f].
  - right. right. split; [|reflexivity].
    intros Hu. destruct (Hmiss Hu) as [(? & ? & [=])|(? & [=])].
  - left. exists (r :: rows). split; [|reflexivity].
    apply load_cache_rows_inv. exact Hload.
  - right. right. split; [|reflexivity].
    intros Hu. destruct (Hmiss Hu) as [(? & ? & [=])|(? & [=])].
  - right. right. split; [|reflexivity].
    intros Hu. destruct (Hmiss Hu) as [(? & ? & [=])|(? & [=])].
  - right. left. exists f. split; [|reflexivity].
    apply load_cache_frame_inv. exact Hload.
Qed.

Lemma get_stock_basic_uninitialised (tsm : option TsModule) (env : Env) (st : St) :
  _get_stock_basic (mkService None tsm) env st = (Ok None, st).
Proof. reflexivity. Qed.

Lemma fetch_outcome_calls (api : ProApi) (env : Env) (st : St) :
  calls (fetch_outcome api env st).2 = calls st ++ [CallStockBasic].
Proof.
  unfold fetch_outcome.
  destruct (stock_basic api) as [msg|[[|r rows]|]]; try reflexivity.
  destruct (cache_writable env); reflexivity.
Qed.

Lemma fetch_outcome_ok (api : ProApi) (env : Env) (st : St) :
  exists df, (fetch_outcome api env st).1 = Ok df /\ plain df.
Proof.
  unfold fetch_outcome.
  destruct (stock_basic api) as [msg|[[|r rows]|]]; eexists; split;
    first [reflexivity | exact I].
Qed.

(** A fetch leaves no foreign frame where it found none. *)
Lemma fetch_outcome_no_foreign_frame (api : ProApi) (env : Env) (st : St) :
  no_foreign_frame env st -> no_foreign_frame env (fetch_outcome api env st).2.
Proof.
  intros Hnf f (t & Hd & Hage). apply (Hnf f). exists t.
  split; [|exact Hage]. revert Hd. unfold fetch_outcome, DIRECTORY_KEY.
  destruct (stock_basic api) as [msg|[[|r rows]|]]; cbn [snd disk]; try tauto.
  destruct (cache_writable env); cbn [disk]; [|tauto].
  rewrite lookup_insert_eq. discriminate.
Qed.



(** Where the cache holds no foreign frame, the fetch yields the directory
    or nothing, and leaves no foreign frame. *)
Lemma get_stock_basic_plain (self : TushareRealtimeService) (env : Env) (st : St) :
  no_foreign_frame env st ->
  exists df, (_get_stock_basic self env st).1 = Ok df /\ plain df /\
             no_foreign_frame env (_get_stock_basic self env st).2.
Proof.
  intros Hnf. destruct self as [[api|] tsm].
  - destruct (get_stock_basic_cases api tsm env st)
      as [(rows & _ & ->)|[(f & Hf & _)|(_ & ->)]].
    + exists (Some (Rows rows)). split; [reflexivity|]. split; [exact I|exact Hnf].
    + destruct (Hnf f Hf).
    + destruct (fetch_outcome_ok api env st) as (df & H & Hp).
      exists df. split; [exact H|]. split; [exact Hp|].
      apply fetch_outcome_no_foreign_frame. exact Hnf.
  - rewrite get_stock_basic_uninitialised.
    exists None. split; [reflexivity|]. split; [exact I|exact Hnf].
Qed.



(** The cache at work: after a fetch that went upstream and stored its
    result, a second fetch within the window returns the stored snapshot
    and makes no further call. *)
Lemma refetch_within_window_uses_cache
    (api : ProApi) (tsm : option TsModule) (env env' : Env) (st : St)
    (r : DirectoryEntry) (rows : list DirectoryEntry) :
  ~ usable_cached_value env st ->
  stock_basic api = Returns (Some (r :: rows)) ->
  cache_writable env = true ->
  (time_now env' - time_now env < WINDOW)%Q ->
  let st1 := (_get_stock_basic (mkService (Some api) tsm) env st).2 in
  _get_stock_basic (mkService (Some api) tsm) env' st1
    = (Ok (Some (Rows (r :: rows))), st1).
Proof.
  intros Hmiss Hup Hw Hage. cbv zeta.
  destruct (get_stock_basic_cases api tsm env st)
    as [(rows0 & Hf0 & _)|[(f0 & Hf0 & _)|(_ & ->)]];
    [destruct Hmiss; left; eauto|destruct Hmiss; right; eauto|].
  assert (Hf : fresh_snapshot env' (fetch_outcome api env st).2 (r :: rows)).
  { unfold fetch_outcome. rewrite Hup, Hw. cbn [snd].
    exists (Some (time_now env)). unfold DIRECTORY_KEY. cbn [disk].
    rewrite lookup_insert_eq. split; [reflexivity|].
    split; [discriminate|exact Hage]. }
  destruct (get_stock_basic_cases api tsm env' (fetch_outcome api env st).2)
    as [(rows1 & Hf1 & ->)|[(f1 & Hf1 & _)|(Hnone & _)]].
  - rewrite (fresh_snapshot_unique _ _ _ _ Hf1 Hf). reflexivity.
  - destruct (fresh_snapshot_not_frame _ _ _ _ Hf Hf1).
  - destruct Hnone. left. eauto.
Qed.

End Directory.

Section DirectoryExamples.
Import Tushare DirectorySpec.

Lemma stale_disk_not_usable : ~ usable_cached_value env0 (mkSt stale_disk []).
Proof.
  intros [(rows & t & Hd & _ & Hage)|(f & t & Hd & Hage)].
  - vm_compute in Hd. injection Hd as <- <-.
    vm_compute in Hage. discriminate Hage.
  - vm_compute in Hd. discriminate Hd.
Defined.







End DirectoryExamples.

(* ===================================================================== *)
(** ** Resolving names to codes                                           *)
(* ===================================================================== *)

Section Resolve.
Import Tushare DirectorySpec.
Local Open Scope m_scope.








(** On a frame that is no directory the look-up is what the frame makes of
    it. *)
Lemma get_code_by_name_foreign (api : ProApi) (tsm : option TsModule)
    (env : Env) (names : list string) (st : St) (f : ForeignFrame) :
  fresh_frame env st f ->
  _get_code_by_name (mkService (Some api) tsm) env names st
    = (codes_of_names f names, st).
Proof.
  intros Hf. unfold _get_code_by_name, bind.
  destruct (get_stock_basic_cases api tsm env st)
    as [(rows0 & Hf0 & _)|[(f0 & Hf0 & ->)|(Hnone & _)]].
  - destruct (fresh_snapshot_not_frame _ _ _ _ Hf0 Hf).
  - rewrite (fresh_frame_unique _ _ _ _ Hf Hf0). reflexivity.
  - destruct Hnone. right. eauto.
Qed.


End Resolve.

Section ResolveExamples.
Import Tushare DirectorySpec.



Lemma empty_disk_no_foreign_frame (env : Env) (calls : list Call) :
  no_foreign_frame env (mkSt ∅ calls).
Proof. intros f (t & Hd & _). cbn in Hd. rewrite lookup_empty in Hd. discriminate Hd. Defined.



(** The sample scenario of the specification, and case sensitivity. *)
Example resolve_sample :
  let df := [mkEntry "600000.SH" "600000" "Pudong Bank"] in
  resolve_codes df ["Pudong Bank"; "Unknown Co"] = [("Pudong Bank", "600000.SH")] /\
  not_found_names ["Pudong Bank"; "Unknown Co"]
    (resolve_codes df ["Pudong Bank"; "Unknown Co"]) = ["Unknown Co"] /\
  resolve_codes df ["pudong bank"] = [].
Proof. repeat split. Qed.

End ResolveExamples.

(* ===================================================================== *)
(** ** Requests by name: validation                                       *)
(* ===================================================================== *)

Section Validation.
Import Tushare DirectorySpec RequestSpec.
Local Open Scope m_scope.
Context `{Str : StrMethods}.

Lemma append_cons (c : ascii) (s t : string) :
  String c s +:+ t = String c (s +:+ t).
Proof. reflexivity. Qed.

Lemma split_no_sep (sep : ascii) (s : string) :
  contains_char sep s = false -> split sep s = [s].
Proof.
  induction s as [|c s IH]; cbn; [reflexivity|].
  destruct (Ascii.eqb c sep); cbn; [discriminate|].
  intros H. rewrite (IH H). reflexivity.
Qed.

Lemma split_app_sep (sep : ascii) (a b : string) :
  contains_char sep a = false ->
  split sep (a +:+ String sep b) = a :: split sep b.
Proof.
  induction a as [|c a IH].
  - intros _. change ("" +:+ String sep b) with (String sep b).
    cbn. rewrite Ascii.eqb_refl. reflexivity.
  - cbn [contains_char]. rewrite append_cons. cbn [split].
    destruct (Ascii.eqb c sep); cbn; [discriminate|].
    intros H. rewrite (IH H). reflexivity.
Qed.

Lemma split_join (names : list string) :
  names <> [] ->
  (forall n, In n names -> contains_char "," n = false) ->
  split "," (join "," names) = names.
Proof.
  induction names as [|n names IH]; [congruence|].
  intros _ Hall. destruct names as [|n' names].
  - cbn. apply split_no_sep. apply Hall. left. reflexivity.
  - change (join "," (n :: n' :: names))
      with (n +:+ String "," (join "," (n' :: names))).
    rewrite split_app_sep by (apply Hall; left; reflexivity).
    f_equal. apply IH; [discriminate|].
    intros m Hm. apply Hall. right. exact Hm.
Qed.

(** Proper names written between commas are the names the request sees. *)
Lemma names_list_of_join (names : list string) :
  names <> [] ->
  (forall n, In n names -> proper_name n) ->
  names_list_of (join "," names) = map strip names.
Proof.
  intros Hne Hall. unfold names_list_of.
  rewrite split_join; [|exact Hne|intros n Hn; apply (Hall n Hn)].
  f_equal. clear Hne.
  induction names as [|n names IH]; [reflexivity|].
  cbn. destruct (String.eqb_spec (strip n) "") as [E|_].
  - destruct (Hall n (or_introl eq_refl)) as [_ H]. contradiction.
  - cbn. f_equal. apply IH. intros m Hm. apply Hall. right. exact Hm.
Qed.

(** C7.  A request naming more than 50 stocks fails with the validation
    error, and the state is the one it started in: no name was resolved and
    no quote fetched.  This holds for the names the request counts (the
    pieces between commas that are not blank), hence for every list of more
    than 50 proper names written between commas. *)
Theorem C7_more_than_50_names_rejected
    (self : TushareRealtimeService) (env : Env) (st : St) :
  (forall stock_names : string,
     (50 < length (names_list_of stock_names))%nat ->
     get_realtime_by_name self env stock_names st
       = (Ok (failure "Maximum 50 stocks per request"), st)) /\
  (forall names : list string,
     (forall n, In n names -> proper_name n) ->
     (50 < length names)%nat ->
     get_realtime_by_name self env (join "," names) st
       = (Ok (failure "Maximum 50 stocks per request"), st)).
Proof.
  assert (H1 : forall stock_names : string,
     (50 < length (names_list_of stock_names))%nat ->
     get_realtime_by_name self env stock_names st
       = (Ok (failure "Maximum 50 stocks per request"), st)).
  { intros stock_names Hlen. unfold get_realtime_by_name.
    destruct (names_list_of stock_names) as [|n l] eqn:E;
      [cbn in Hlen; lia|].
    apply Nat.ltb_lt in Hlen. rewrite Hlen. reflexivity. }
  split; [exact H1|].
  intros names Hall Hlen. apply H1.
  rewrite names_list_of_join, length_map; [exact Hlen| |exact Hall].
  destruct names; [cbn in Hlen; lia|discriminate].
Qed.






End Validation.

Section ValidationExamples.
Import Tushare DirectorySpec RequestSpec.
#[local] Existing Instance ascii_methods.

Lemma C7_fifty_one_names_witness :
  length (names_list_of fifty_one_names) = 51%nat /\
  get_realtime_by_name (mkService (Some api_up) None) env0 fifty_one_names
    (mkSt stale_disk [])
    = (Ok (failure "Maximum 50 stocks per request"), mkSt stale_disk []).
Proof.
  split; [vm_compute; reflexivity|].
  apply (proj1 (C7_more_than_50_names_rejected (mkService (Some api_up) None)
                  env0 (mkSt stale_disk []))).
  vm_compute. lia.
Defined.



End ValidationExamples.

(* ===================================================================== *)
(** ** Response envelopes                                                 *)
(* ===================================================================== *)

Section Envelopes.
Import Tushare DirectorySpec EnvelopeSpec.
Local Open Scope m_scope.
Context `{Str : StrMethods}.







Lemma get_name_by_code_ok (self : TushareRealtimeService) (env : Env)
    (codes : list string) (st : St) :
  no_foreign_frame env st ->
  exists code_map,
    _get_name_by_code self env codes st
      = (Ok code_map, (_get_stock_basic self env st).2).
Proof.
  intros Hnf.
  destruct (get_stock_basic_plain self env st Hnf) as (df & Hdf & Hplain & _).
  unfold _get_name_by_code, bind.
  destruct (_get_stock_basic self env st) as [r st']. cbn in Hdf. subst r.
  destruct df as [[[|e rows]|f]|]; cbn; eauto. destruct Hplain.
Qed.






End Envelopes.

(* ===================================================================== *)
(** ** Rankings                                                           *)
(* ===================================================================== *)

Section Ranking.
Import Tushare RankingSpec EnvelopeSpec.
Local Open Scope m_scope.

Lemma ascii_compare_N (a b : ascii) :
  Ascii.compare a b = N.compare (N_of_ascii a) (N_of_ascii b).
Proof. reflexivity. Qed.

Lemma ascii_compare_Eq (a b : ascii) : Ascii.compare a b = Eq -> a = b.
Proof. apply Ascii.compare_eq_iff. Qed.

Lemma string_leb_trans (s1 s2 s3 : string) :
  String.leb s1 s2 = true -> String.leb s2 s3 = true -> String.leb s1 s3 = true.
Proof.
  unfold String.leb. revert s2 s3.
  induction s1 as [|a s1 IH]; intros [|b s2] [|c s3]; cbn; try congruence.
  destruct (Ascii.compare a b) eqn:Eab; try discriminate.
  - apply ascii_compare_Eq in Eab. subst b.
    destruct (Ascii.compare a c) eqn:Eac; try congruence. apply IH.
  - intros _. destruct (Ascii.compare b c) eqn:Ebc; try discriminate.
    + apply ascii_compare_Eq in Ebc. subst c. rewrite Eab. reflexivity.
    + rewrite ascii_compare_N in *.
      pose proof (proj1 (N.compare_lt_iff _ _) Eab) as Hab.
      pose proof (proj1 (N.compare_lt_iff _ _) Ebc) as Hbc.
      assert (H : (N_of_ascii a < N_of_ascii c)%N) by lia.
      apply N.compare_lt_iff in H. rewrite H. reflexivity.
Qed.

Lemma before_in_order (ascending : bool) (a b : cell) :
  before ascending a b = true -> in_order ascending a b.
Proof.
  unfold before, in_order, cell_leb.
  destruct ascending, a as [|x|x], b as [|y|y]; cbn; try discriminate; auto;
    apply Qle_bool_iff.
Qed.

Lemma Qle_bool_false (x y : Q) : Qle_bool x y = false -> (y <= x)%Q.
Proof.
  intros H. apply Qlt_le_weak, Qnot_le_lt. intros Hle.
  apply Qle_bool_iff in Hle. congruence.
Qed.

Lemma string_leb_false (x y : string) :
  String.leb x y = false -> String.leb y x = true.
Proof. destruct (String.leb_total x y); congruence. Qed.

Lemma before_total (num ascending : bool) (a b : cell) :
  has_kind num a -> has_kind num b ->
  before ascending a b = false -> in_order ascending b a.
Proof.
  unfold before, in_order, cell_leb, has_kind.
  destruct ascending, a as [|x|x], b as [|y|y]; cbn; try tauto; try congruence;
    intros _ _; first [apply Qle_bool_false | apply string_leb_false].
Qed.

Lemma in_order_trans (num ascending : bool) (a b c : cell) :
  has_kind num a -> has_kind num b -> has_kind num c ->
  in_order ascending a b -> in_order ascending b c -> in_order ascending a c.
Proof.
  unfold in_order, has_kind.
  destruct ascending, a as [|x|x], b as [|y|y], c as [|z|z]; cbn;
    try tauto; try congruence; intros _ _ _ H1 H2;
    first [ exact (Qle_trans _ _ _ H1 H2) | exact (Qle_trans _ _ _ H2 H1)
          | exact (string_leb_trans _ _ _ H1 H2)
          | exact (string_leb_trans _ _ _ H2 H1) ].
Qed.

Lemma insert_row_perm (by_ : string) (ascending : bool)
    (x : gmap string cell) (l : list (gmap string cell)) :
  insert_row by_ ascending x l ≡ₚ x :: l.
Proof.
  induction l as [|y l IH]; cbn; [reflexivity|].
  destruct (before _ _ _); [reflexivity|].
  rewrite IH. apply Permutation_swap.
Qed.

Lemma sort_rows_perm (by_ : string) (ascending : bool)
    (l : list (gmap string cell)) :
  sort_rows by_ ascending l ≡ₚ l.
Proof.
  induction l as [|x l IH]; cbn; [reflexivity|].
  rewrite insert_row_perm, IH. reflexivity.
Qed.

Lemma insert_row_sorted (num : bool) (by_ : string) (ascending : bool)
    (x : gmap string cell) (l : list (gmap string cell)) :
  has_kind num (sort_key by_ x) ->
  Forall (fun r => has_kind num (sort_key by_ r)) l ->
  sorted_by by_ ascending l ->
  sorted_by by_ ascending (insert_row by_ ascending x l).
Proof.
  unfold sorted_by. intros Hx Hl Hs.
  induction l as [|y l IH]; cbn.
  - repeat constructor.
  - apply Forall_cons in Hl as [Hy Hl].
    apply StronglySorted_cons in Hs as [Hyl Hs].
    destruct (before ascending (sort_key by_ x) (sort_key by_ y)) eqn:E.
    + apply StronglySorted_cons. split.
      * apply before_in_order in E. constructor; [exact E|].
        rewrite Forall_forall in Hyl, Hl |- *. intros z Hz.
        exact (in_order_trans num ascending _ _ _ Hx Hy (Hl z Hz) E (Hyl z Hz)).
      * apply StronglySorted_cons. split; assumption.
    + apply StronglySorted_cons. split; [|apply IH; assumption].
      rewrite (insert_row_perm by_ ascending x l).
      constructor; [|exact Hyl].
      exact (before_total num ascending _ _ Hx Hy E).
Qed.

Lemma sort_rows_sorted (num : bool) (by_ : string) (ascending : bool)
    (l : list (gmap string cell)) :
  Forall (fun r => has_kind num (sort_key by_ r)) l ->
  sorted_by by_ ascending (sort_rows by_ ascending l).
Proof.
  induction l as [|x l IH]; cbn; intros Hl.
  - constructor.
  - apply Forall_cons in Hl as [Hx Hl].
    apply (insert_row_sorted num); [exact Hx| |apply IH; exact Hl].
    rewrite (sort_rows_perm by_ ascending l). exact Hl.
Qed.

Lemma comparable_kind (keys : list cell) :
  comparable keys = true -> exists num, Forall (has_kind num) keys.
Proof.
  unfold comparable. intros H. apply orb_prop in H as [H|H];
    [exists true|exists false];
    rewrite forallb_forall in H; apply Forall_forall; intros c Hc;
    apply list_elem_of_In in Hc; specialize (H c Hc);
    destruct c; try discriminate; reflexivity.
Qed.

Lemma filter_null_split (by_ : string) (l : list (gmap string cell)) :
  filter (fun r => negb (is_null (sort_key by_ r))) l
    ++ filter (fun r => is_null (sort_key by_ r)) l ≡ₚ l.
Proof.
  induction l as [|x l IH]; [reflexivity|].
  rewrite !filter_cons. destruct (is_null (sort_key by_ x)); cbn.
  - rewrite decide_False by (intros []). rewrite decide_True by exact I.
    rewrite <- Permutation_middle, IH. reflexivity.
  - rewrite decide_True by exact I. rewrite decide_False by (intros []).
    cbn. rewrite IH. reflexivity.
Qed.

Lemma in_order_null (ascending : bool) (a : cell) : in_order ascending a CNull.
Proof. destruct a; exact I. Qed.

(** Rows that all lack the key are in order, whatever their order. *)
Lemma all_null_sorted (by_ : string) (ascending : bool)
    (l : list (gmap string cell)) :
  Forall (fun r => sort_key by_ r = CNull) l -> sorted_by by_ ascending l.
Proof.
  unfold sorted_by. induction 1 as [|x l Hx Hl IH]; [constructor|].
  apply StronglySorted_cons. split; [|exact IH].
  eapply Forall_impl; [exact Hl|].
  intros r Hr. unfold row_order. rewrite Hr. apply in_order_null.
Qed.

(** What [sort_values] returns when the keys compare. *)
Lemma sort_values_ok (by_ : string) (ascending : bool) (df : Frame) :
  comparable (present_keys by_ df) = true ->
  exists sorted,
    sort_values by_ ascending df = Ok (mkFrame (columns df) sorted) /\
    sorted ≡ₚ rows df /\ sorted_by by_ ascending sorted.
Proof.
  intros Hc. unfold sort_values. fold (present_keys by_ df). rewrite Hc.
  eexists. split; [reflexivity|]. split.
  - rewrite sort_rows_perm. apply filter_null_split.
  - destruct (comparable_kind _ Hc) as (num & Hk).
    unfold present_keys in Hk. rewrite Forall_map in Hk.
    apply StronglySorted_app_2.
    + intros r1 r2 _ H2. apply list_elem_of_filter in H2 as [Hnull _].
      unfold row_order.
      destruct (sort_key by_ r2); try destruct Hnull. apply in_order_null.
    + apply (sort_rows_sorted num). exact Hk.
    + apply all_null_sorted. apply Forall_forall. intros r Hr.
      apply list_elem_of_filter in Hr as [Hnull _].
      destruct (sort_key by_ r); try destruct Hnull. reflexivity.
Qed.

Lemma sort_values_raises (by_ : string) (ascending : bool) (df : Frame) :
  comparable (present_keys by_ df) = false ->
  exists e, sort_values by_ ascending df = Raise e.
Proof.
  intros Hc. unfold sort_values. fold (present_keys by_ df). rewrite Hc. eauto.
Qed.

Lemma sorted_by_take (by_ : string) (ascending : bool) (k : nat)
    (l : list (gmap string cell)) :
  sorted_by by_ ascending l -> sorted_by by_ ascending (take k l).
Proof.
  unfold sorted_by. intros H. rewrite <- (take_drop k l) in H.
  exact (StronglySorted_app_1_l _ _ _ H).
Qed.

Lemma head_sorted (by_ : string) (ascending : bool) (n : Z) (df : Frame) :
  sorted_by by_ ascending (rows df) ->
  sorted_by by_ ascending (rows (head n df)).
Proof. intros H. unfold head. cbn. apply sorted_by_take. exact H. Qed.

Lemma head_length (n : Z) (df : Frame) :
  0 <= n -> Z.of_nat (length (rows (head n df))) <= n.
Proof.
  intros Hn. unfold head. cbn.
  destruct (Z.leb_spec 0 n); [|lia]. rewrite length_take. lia.
Qed.

(** A field that is no column is missing from every row of the frame. *)
Lemma absent_column_null (by_ : string) (records : list (gmap string cell)) :
  by_ ∉ columns (DataFrame records) ->
  Forall (fun r => sort_key by_ r = CNull) (rows (DataFrame records)).
Proof.
  unfold DataFrame. cbn. intros Habs.
  apply Forall_forall. intros row Hrow.
  apply list_elem_of_In, in_map_iff in Hrow as (r & <- & Hr).
  unfold sort_key.
  assert (Hnone : (r ∪ gset_to_gmap CNull (⋃ map dom records)) !! by_ = None).
  { apply lookup_union_None. split.
    - apply not_elem_of_dom. intros Hd. apply Habs.
      apply elem_of_union_list. exists (dom r). split; [|exact Hd].
      apply list_elem_of_In, in_map, Hr.
    - apply lookup_gset_to_gmap_None. exact Habs. }
  rewrite Hnone. reflexivity.
Qed.

Lemma realtime_list_top_unfold (self : TushareRealtimeService) (env : Env)
    (src : string) (top_n : Z) (sort_by : string) (ascending : bool)
    (st st1 : St) (snapshot : Envelope (list (gmap string cell))) :
  _get_realtime_list self env src st = (Ok snapshot, st1) ->
  get_realtime_list_top self env src top_n sort_by ascending st =
    match success snapshot, data snapshot with
    | true, Some (r :: records) =>
        match top_response env src top_n sort_by ascending (r :: records) with
        | Ok e => (Ok e, st1)
        | Raise ex => (Ok (failure (str_exn ex)), st1)
        end
    | _, _ => (Ok snapshot, st1)
    end.
Proof.
  intros H. unfold get_realtime_list_top, bind. rewrite H.
  destruct (success snapshot), (data snapshot) as [[|r records]|];
    reflexivity.
Qed.

(** The three ways [top_response] can go. *)
Lemma top_response_cases (env : Env) (src : string) (top_n : Z)
    (sort_by : string) (ascending : bool)
    (records : list (gmap string cell)) :
  let df := DataFrame records in
  ((sort_by ∉ columns df) /\
   exists e, top_response env src top_n sort_by ascending records = Ok e /\
             success e = true /\ data e = Some (rows (head top_n df))) \/
  ((sort_by ∈ columns df) /\ comparable (present_keys sort_by df) = true /\
   exists sorted e,
     top_response env src top_n sort_by ascending records = Ok e /\
     success e = true /\ sorted ≡ₚ rows df /\
     sorted_by sort_by ascending sorted /\
     data e = Some (rows (head top_n (mkFrame (columns df) sorted)))) \/
  ((sort_by ∈ columns df) /\ comparable (present_keys sort_by df) = false /\
   exists ex, top_response env src top_n sort_by ascending records = Raise ex).
Proof.
  cbv zeta. unfold top_response.
  destruct (decide (sort_by ∈ columns (DataFrame records))) as [Hin|Hout].
  - rewrite (bool_decide_eq_true_2 _ Hin).
    destruct (comparable (present_keys sort_by (DataFrame records))) eqn:Hc.
    + right; left. split; [exact Hin|]. split; [reflexivity|].
      destruct (sort_values_ok sort_by ascending _ Hc)
        as (sorted & Hsv & Hperm & Hsorted).
      exists sorted. rewrite Hsv. cbn.
      eexists. split; [reflexivity|]. auto.
    + right; right. split; [exact Hin|]. split; [reflexivity|].
      destruct (sort_values_raises sort_by ascending _ Hc) as (ex & Hsv).
      rewrite Hsv. eauto.
  - rewrite (bool_decide_eq_false_2 _ Hout).
    left. split; [exact Hout|]. cbn. eexists. split; [reflexivity|]. auto.
Qed.



(** C5, counterexample.  With [top_n = -1] the ranking of four stocks
    returns three records; and when the sort column holds a dash beside a
    number, the ranking returns a failure envelope although the sort field
    is present. *)
Lemma C5_negative_top_n_and_mixed_column :
  length (returned_records
            (get_realtime_list_top (mkService None (Some (crawler market))) env1
               "dc" (-1) "pct_change" false st0)) = 3%nat /\
  (exists msg,
     (get_realtime_list_top (mkService None (Some (crawler market_with_dash)))
        env1 "dc" 10 "pct_change" false st0).1 = Ok (failure msg)) /\
  ~ ranking_as_worded.
Proof.
  split; [vm_compute; reflexivity|].
  split; [eexists; vm_compute; reflexivity|].
  intros Hclaim.
  destruct (Hclaim (mkService None (Some (crawler market))) env1 "dc" (-1)
              "pct_change" false st0 _ _ eq_refl eq_refl)
    as (e & _ & Hlen & _).
  lia.
Qed.

(** C5, amended.  For every successful market snapshot the ranking returns
    an envelope (it does not raise) in the state the snapshot left; for
    [top_n >= 0] it holds at most [top_n] records; the records it holds are
    in order by the sort field in the requested direction, those without a
    value last.  When the snapshot has records: if the sort field is a
    column whose values are all numbers or all text, the records are the
    first [top_n] of a sorted rearrangement of the snapshot; if its values
    mix numbers and text, the envelope is a failure without data; if the
    sort field is no column, the sort is skipped and the records are the
    first [top_n] of the snapshot in its own order. *)
Theorem C5_ranking_top_n
    (self : TushareRealtimeService) (env : Env) (src : string) (top_n : Z)
    (sort_by : string) (ascending : bool) (st st1 : St)
    (snapshot : Envelope (list (gmap string cell))) :
  _get_realtime_list self env src st = (Ok snapshot, st1) ->
  success snapshot = true ->
  let df := DataFrame (records_of snapshot) in
  exists e,
    get_realtime_list_top self env src top_n sort_by ascending st = (Ok e, st1) /\
    (0 <= top_n -> Z.of_nat (length (records_of e)) <= top_n) /\
    sorted_by sort_by ascending (records_of e) /\
    (records_of snapshot <> [] -> sort_by ∈ columns df ->
     comparable (present_keys sort_by df) = true ->
       success e = true /\
       exists sorted,
         sorted ≡ₚ rows df /\ sorted_by sort_by ascending sorted /\
         records_of e = rows (head top_n (mkFrame (columns df) sorted))) /\
    (records_of snapshot <> [] -> sort_by ∈ columns df ->
     comparable (present_keys sort_by df) = false ->
       success e = false /\ data e = None) /\
    (records_of snapshot <> [] -> sort_by ∉ columns df ->
       success e = true /\ records_of e = rows (head top_n df)).
Proof.
  intros Hsnap Hsucc. cbv zeta.
  rewrite (realtime_list_top_unfold _ _ _ top_n sort_by ascending _ _ _ Hsnap).
  rewrite Hsucc. unfold records_of.
  destruct (data snapshot) as [[|r records]|] eqn:Hdata; cbn [default].
  1, 3: exists snapshot; split; [reflexivity|];
        rewrite Hdata; cbn;
        split; [lia|]; split; [constructor|];
        repeat split; intros; congruence.
  destruct (top_response_cases env src top_n sort_by ascending (r :: records))
    as [(Hout & e & -> & He & Hd)
       |[(Hin & Hc & sorted & e & -> & He & Hperm & Hsorted & Hd)
        |(Hin & Hc & ex & ->)]].
  - exists e. split; [reflexivity|]. rewrite Hd. cbn [default].
    split; [apply head_length|].
    split; [apply head_sorted, all_null_sorted, absent_column_null, Hout|].
    repeat split; intros; unfold id in *; try contradiction; auto.
  - exists e. split; [reflexivity|]. rewrite Hd. cbn [default].
    split; [apply head_length|].
    split; [apply head_sorted; exact Hsorted|].
    repeat split; intros; unfold id in *; try contradiction; try congruence;
      eauto.
  - eexists. split; [reflexivity|].
    cbn -[DataFrame present_keys comparable columns].
    split; [lia|]. split; [constructor|].
    repeat split; intros; unfold id in *; try contradiction; congruence.
Qed.

Lemma C5_ranking_witness :
  exists e,
    get_realtime_list_top (mkService None (Some (crawler market))) env1
      "dc" 2 "pct_change" false st0
      = (Ok e, mkSt ∅ [CallRealtimeList "dc"]) /\
    map (fun r => r !! "ts_code") (records_of e)
      = [Some (CStr "000002.SZ"); Some (CStr "000001.SZ")] /\
    Z.of_nat (length (records_of e)) <= 2.
Proof.
  destruct (C5_ranking_top_n (mkService None (Some (crawler market))) env1
              "dc" 2 "pct_change" false st0 _ _ eq_refl eq_refl)
    as (e & He & Hlen & _).
  exists e. split; [exact He|]. split; [|apply Hlen; lia].
  assert (Hv :
    map (fun r => r !! "ts_code")
      (returned_records
         (get_realtime_list_top (mkService None (Some (crawler market)))
            env1 "dc" 2 "pct_change" false st0))
    = [Some (CStr "000002.SZ"); Some (CStr "000001.SZ")])
    by (vm_compute; reflexivity).
  rewrite He in Hv. exact Hv.
Defined.

End Ranking.

(* ===================================================================== *)
(** ** Every public operation answers with an envelope                    *)
(* ===================================================================== *)

Section PublicOperations.
Import Tushare DirectorySpec EnvelopeSpec.
Context `{Str : StrMethods}.


End PublicOperations.

Section PublicOperationsExamples.
Import Tushare DirectorySpec EnvelopeSpec.
#[local] Existing Instance ascii_methods.


(** A quote request for one known and one unknown name: the unknown name
    is reported in the metadata of the successful envelope. *)
Example quote_with_unresolved_name :
  let tsm := mkTs (fun _ _ => Returns (Some [Ok {[ "price" := CNum (21 # 2) ]}]))
                  (fun _ _ => Returns None) (fun _ => Returns None) in
  exists e md,
    get_realtime_by_name (mkService (Some api_up) (Some tsm)) env0
        "Pudong Bank, Unknown Co" (mkSt fresh_disk [])
      = (Ok e, mkSt fresh_disk [CallRealtimeQuote "600000.SH" "sina"]) /\
    success e = true /\ data e = Some [ {[ "price" := CNum (21 # 2) ]} ] /\
    metadata e = Some md /\
    md !! "not_found_names" = Some (PyList [PyStr "Unknown Co"]) /\
    md !! "query_time" = Some (PyStr "2023-11-16 02:00:00").
Proof.
  cbv zeta. eexists _, _. split; [vm_compute; reflexivity|].
  repeat split; vm_compute; reflexivity.
Qed.


End PublicOperationsExamples.

(* ===================================================================== *)
(** ** Requests written in ASCII                                          *)
(* ===================================================================== *)

(** On arguments that are ASCII text the services do not look at the
    Unicode tables: whatever the [StrMethods], the date conversion, the
    frequency validation and the requests by name are those computed with
    the ASCII operations.  So the examples, which are ASCII, hold for every
    Python. *)
Section AsciiRequests.
Import Tushare.
Local Open Scope m_scope.
Context `{Str : StrMethods}.

Lemma ascii_text_tail (c : ascii) (s : string) :
  ascii_text (String c s) = true -> ascii_text s = true.
Proof. cbn [ascii_text]. intros H. apply andb_prop in H as [_ H]. exact H. Qed.

Lemma parse_Y_on_ascii (s : string) :
  ascii_text s = true ->
  parse_Y s = parse_Y (Str := ascii_methods) s /\
  forall y r, parse_Y (Str := ascii_methods) s = Some (y, r) ->
              ascii_text r = true.
Proof.
  intros H0. unfold parse_Y.
  change (@decimal ascii_methods) with ascii_decimal.
  destruct (decimal_on_ascii s H0) as [-> K0].
  destruct (ascii_decimal s) as [[a r1]|]; [|split; [reflexivity|discriminate]].
  pose proof (K0 _ _ eq_refl) as H1.
  destruct (decimal_on_ascii r1 H1) as [-> K1].
  destruct (ascii_decimal r1) as [[b r2]|]; [|split; [reflexivity|discriminate]].
  pose proof (K1 _ _ eq_refl) as H2.
  destruct (decimal_on_ascii r2 H2) as [-> K2].
  destruct (ascii_decimal r2) as [[c r3]|]; [|split; [reflexivity|discriminate]].
  pose proof (K2 _ _ eq_refl) as H3.
  destruct (decimal_on_ascii r3 H3) as [-> K3].
  destruct (ascii_decimal r3) as [[d r4]|]; [|split; [reflexivity|discriminate]].
  split; [reflexivity|]. intros y r [= _ <-]. exact (K3 _ _ eq_refl).
Qed.

Lemma parse_dash_ascii (s r : string) :
  ascii_text s = true -> parse_dash s = Some r -> ascii_text r = true.
Proof.
  destruct s as [|c s]; [discriminate|]. intros H. cbn.
  destruct (Ascii.eqb c "-"); [|discriminate].
  intros [= <-]. exact (ascii_text_tail _ _ H).
Qed.

Lemma parse_m_ascii (s r : string) (m : Z) :
  ascii_text s = true -> parse_m s = Some (m, r) -> ascii_text r = true.
Proof.
  destruct s as [|a [|b s]]; [discriminate| |]; intros H; cbn [parse_m].
  - destruct (in_range 1 9 a); [|discriminate]. intros [= _ <-]. reflexivity.
  - pose proof (ascii_text_tail _ _ H) as H1.
    pose proof (ascii_text_tail _ _ H1) as H2.
    destruct (Ascii.eqb a "1" && in_range 0 2 b); [intros [= _ <-]; exact H2|].
    destruct (Ascii.eqb a "0" && in_range 1 9 b); [intros [= _ <-]; exact H2|].
    destruct (in_range 1 9 a); [|discriminate]. intros [= _ <-]. exact H1.
Qed.

Lemma parse_d_on_ascii (s : string) :
  ascii_text s = true -> parse_d s = parse_d (Str := ascii_methods) s.
Proof.
  destruct s as [|a [|b s]]; [reflexivity|reflexivity|].
  intros H. pose proof (ascii_text_tail _ _ H) as H1.
  unfold parse_d. change (@decimal ascii_methods) with ascii_decimal.
  destruct (decimal_on_ascii _ H1) as [-> _]. reflexivity.
Qed.

Lemma strptime_on_ascii (s : string) :
  ascii_text s = true ->
  strptime_Ymd s = strptime_Ymd (Str := ascii_methods) s.
Proof.
  intros H. unfold strptime_Ymd.
  destruct (parse_Y_on_ascii s H) as [-> K].
  destruct (parse_Y (Str := ascii_methods) s) as [[y r1]|]; [|reflexivity].
  pose proof (K _ _ eq_refl) as H1.
  destruct (parse_dash r1) as [r2|] eqn:E1; [|reflexivity].
  pose proof (parse_dash_ascii _ _ H1 E1) as H2.
  destruct (parse_m r2) as [[m r3]|] eqn:E2; [|reflexivity].
  pose proof (parse_m_ascii _ _ _ H2 E2) as H3.
  destruct (parse_dash r3) as [r4|] eqn:E3; [|reflexivity].
  pose proof (parse_dash_ascii _ _ H3 E3) as H4.
  rewrite (parse_d_on_ascii r4 H4). reflexivity.
Qed.

Lemma split_ascii (sep : ascii) (s p : string) :
  ascii_text s = true -> In p (split sep s) -> ascii_text p = true.
Proof.
  revert p. induction s as [|c s IH]; intros p H; cbn [split].
  - intros [<-|[]]. reflexivity.
  - cbn [ascii_text] in H. apply andb_prop in H as [Hc Hs].
    destruct (Ascii.eqb c sep).
    + intros [<-|Hp]; [reflexivity|apply IH; assumption].
    + destruct (split sep s) as [|w ws].
      * intros [<-|[]]. cbn [ascii_text]. rewrite Hc. reflexivity.
      * intros [<-|Hp].
        -- cbn [ascii_text]. rewrite Hc. apply IH; [exact Hs|left; reflexivity].
        -- apply IH; [exact Hs|right; exact Hp].
Qed.

Lemma names_list_of_on_ascii (stock_names : string) :
  ascii_text stock_names = true ->
  names_list_of stock_names = names_list_of (Str := ascii_methods) stock_names.
Proof.
  intros H. unfold names_list_of.
  change (@strip ascii_methods) with ascii_strip.
  pose proof (fun p => split_ascii "," stock_names p H) as Hall.
  induction (split "," stock_names) as [|p l IH]; [reflexivity|].
  assert (Hp : strip p = ascii_strip p)
    by (apply strip_ascii_text, Hall; left; reflexivity).
  specialize (IH (fun q Hq => Hall q (or_intror Hq))).
  rewrite !filter_cons. cbn beta. rewrite Hp.
  case_decide; [|exact IH].
  cbn [map]. rewrite Hp, IH. reflexivity.
Qed.

Lemma validate_freq_on_ascii (freq : string) :
  ascii_text freq = true ->
  _validate_freq freq = _validate_freq (Str := ascii_methods) freq.
Proof.
  intros H. unfold _validate_freq. rewrite (upper_ascii_text freq H).
  reflexivity.
Qed.

Lemma realtime_minute_on_ascii (self : TushareRealtimeService) (env : Env)
    (ts_codes freq : string) :
  ascii_text freq = true ->
  _get_realtime_minute self env ts_codes freq
    = _get_realtime_minute (Str := ascii_methods) self env ts_codes freq.
Proof.
  intros H. unfold _get_realtime_minute.
  rewrite (validate_freq_on_ascii freq H). reflexivity.
Qed.

Lemma date_to_timestamp_on_ascii (date_str : string) (end_of_day : bool) :
  ascii_text date_str = true ->
  Finnhub._date_to_timestamp date_str end_of_day
    = Finnhub._date_to_timestamp (Str := ascii_methods) date_str end_of_day.
Proof.
  intros H. unfold Finnhub._date_to_timestamp.
  rewrite (strptime_on_ascii date_str H). reflexivity.
Qed.

Lemma realtime_by_name_on_ascii (self : TushareRealtimeService) (env : Env)
    (stock_names : string) :
  ascii_text stock_names = true ->
  get_realtime_by_name self env stock_names
    = get_realtime_by_name (Str := ascii_methods) self env stock_names.
Proof.
  intros H. unfold get_realtime_by_name.
  rewrite (names_list_of_on_ascii stock_names H). reflexivity.
Qed.

Lemma realtime_tick_by_name_on_ascii (self : TushareRealtimeService) (env : Env)
    (stock_name src : string) :
  ascii_text stock_name = true ->
  get_realtime_tick_by_name self env stock_name src
    = get_realtime_tick_by_name (Str := ascii_methods) self env stock_name src.
Proof.
  intros H. unfold get_realtime_tick_by_name.
  rewrite (strip_ascii_text stock_name H). reflexivity.
Qed.

Lemma minute_by_name_on_ascii (self : TushareRealtimeService) (env : Env)
    (stock_names freq : string) :
  ascii_text stock_names = true -> ascii_text freq = true ->
  _get_minute_by_name self env stock_names freq
    = _get_minute_by_name (Str := ascii_methods) self env stock_names freq.
Proof.
  intros H Hf. unfold _get_minute_by_name, _get_realtime_minute.
  rewrite (names_list_of_on_ascii stock_names H).
  rewrite (validate_freq_on_ascii freq Hf). reflexivity.
Qed.

End AsciiRequests.

(* ===================================================================== *)
(** ** finnhub_service.py: further properties                             *)
(* ===================================================================== *)

Section FinnhubMore.
Import Finnhub FinnhubCalls AggregatorSpec.

Lemma one_call_answer_intro (self_client : Client) (now : Clock)
    (call : ApiResult) (meta : option (gmap string pyval)) :
  one_call_answer call
    (Ok (_format_response now
           (_safe_api_call (mkService (Some self_client)) call) meta)).
Proof.
  unfold one_call_answer, _safe_api_call, outcome_value. cbn [client].
  eexists. split; [reflexivity|].
  destruct call as [msg|v]; [|destruct v]; cbn; auto.
Qed.

(** X1.  On a service with a client, each one-call operation answers in one
    of three ways: when the upstream call raises or returns [None], a
    failure envelope without data and with the fixed error text; otherwise a
    success envelope whose data is the upstream value unchanged and whose
    [found] is the truth value of that value (an empty list or dict is a
    success that is not found). *)
Theorem X1_one_call_operations_answer
    (c : Client) (ep : Endpoints) (now : Clock)
    (symbol start_date end_date resolution transcript_id : string) :
  let self := mkService (Some c) in
  one_call_answer (transcripts c transcript_id)
    (_fetch_transcripts self now transcript_id) /\
  one_call_answer (transcripts_list c symbol)
    (_fetch_transcripts_list self now symbol) /\
  one_call_answer (company_executive c symbol)
    (_fetch_company_executives self now symbol) /\
  one_call_answer (filings ep symbol start_date end_date)
    (_fetch_sec_filings self ep now symbol start_date end_date) /\
  one_call_answer (stock_insider_transactions ep symbol start_date end_date)
    (_fetch_insider_transactions self ep now symbol start_date end_date) /\
  one_call_answer (ownership ep symbol 10)
    (_fetch_institutional_ownership self ep now symbol start_date end_date) /\
  one_call_answer (fund_ownership ep symbol 10)
    (_fetch_fund_ownership self ep now symbol) /\
  one_call_answer (news_sentiment ep symbol)
    (_fetch_news_sentiment self ep now symbol) /\
  one_call_answer (stock_social_sentiment ep symbol)
    (_fetch_social_sentiment self ep now symbol) /\
  one_call_answer (stock_insider_sentiment ep symbol start_date end_date)
    (_fetch_insider_sentiment self ep now symbol start_date end_date) /\
  one_call_answer (upgrade_downgrade ep symbol start_date end_date)
    (_fetch_upgrade_downgrade self ep now symbol start_date end_date) /\
  one_call_answer (pattern_recognition ep symbol resolution)
    (_fetch_pattern_recognition self ep now symbol resolution) /\
  one_call_answer (support_resistance ep symbol resolution)
    (_fetch_support_resistance self ep now symbol resolution) /\
  one_call_answer (aggregate_indicator ep symbol resolution)
    (_fetch_aggregate_indicator self ep now symbol resolution).
Proof.
  cbv zeta. repeat split; apply one_call_answer_intro.
Qed.

Lemma truthy_insert (k : string) (v : pyval) (d : gmap string pyval) :
  truthy (PyDict (<[ k := v ]> d)) = true.
Proof.
  cbn. destruct (map_to_list (<[ k := v ]> d)) eqn:E; [|reflexivity].
  apply map_to_list_empty_iff in E.
  exfalso. exact (insert_non_empty _ _ _ E).
Qed.

Lemma format_response_dict_insert (now : Clock) (k : string) (v : pyval)
    (d : gmap string pyval) (meta : option (gmap string pyval)) :
  let e := _format_response now (PyDict (<[ k := v ]> d)) meta in
  success e = true /\ found e = Some true /\ error e = None /\
  data e = Some (PyDict (<[ k := v ]> d)).
Proof.
  cbv zeta. unfold _format_response. cbn [is_none success found error data].
  rewrite truthy_insert. auto.
Qed.

Lemma safe_call_outcome (c : Client) (call : ApiResult) :
  _safe_api_call (mkService (Some c)) call = outcome_value call.
Proof. destruct call; reflexivity. Qed.

Lemma category_answer_intro (now : Clock)
    (fields : list (string * ApiResult)) (k0 : string) (v0 : pyval)
    (d : gmap string pyval) (meta : option (gmap string pyval)) :
  (forall k, <[ k0 := v0 ]> d !! k = outcome_value <$> field_call k fields) ->
  category_answer fields
    (Ok (_format_response now (PyDict (<[ k0 := v0 ]> d)) meta)).
Proof.
  intros H. unfold category_answer.
  destruct (format_response_dict_insert now k0 v0 d meta) as (H1 & H2 & H3 & H4).
  eexists _, _. split; [reflexivity|]. auto.
Qed.

(** X2.  On a service with a client, the profile, market, financials and
    analysis methods always answer with a success that counts as found,
    whatever the upstream does: each field of the data holds the value its
    own call returned, or [None] when that call raised, and the data has no
    other field.  A failed call never fails the category, and with every
    call failing the answer is still [success] and [found]. *)
Theorem X2_category_fields_survive_failed_calls
    (c : Client) (now : Clock) (symbol start_date end_date : string) :
  let self := mkService (Some c) in
  category_answer
    [("profile", company_profile2 c symbol); ("peers", company_peers c symbol)]
    (_get_company_profile self now symbol) /\
  category_answer [("quote", quote c symbol)]
    (_get_market_data self now symbol start_date end_date) /\
  category_answer
    [("basic_financials", company_basic_financials c symbol "all");
     ("earnings_surprises", company_earnings c symbol 4);
     ("dividends", stock_dividends c symbol start_date end_date)]
    (_get_financials self now symbol start_date end_date) /\
  category_answer [("recommendation_trends", recommendation_trends c symbol)]
    (_get_estimates_and_analysis self now symbol start_date end_date).
Proof.
  cbv zeta.
  repeat split; apply category_answer_intro; intros k; cbn [field_call];
    rewrite ?lookup_insert, ?lookup_empty, ?safe_call_outcome;
    repeat case_decide; subst; try congruence; reflexivity.
Qed.

(** X3.  On a service with a client the news category always answers with
    a success whose data has the single field [news].  When the upstream
    returned a list, the field holds its first ten items: a prefix of the
    list of length [min 10 (len items)], hence the list itself when it has at
    most ten items.  Any other value is passed through, and a call that
    raised leaves [None]. *)
Theorem X3_news_keeps_first_ten
    (c : Client) (now : Clock) (symbol start_date end_date : string) :
  let self := mkService (Some c) in
  exists env d,
    _get_sentiment_and_news self now symbol start_date end_date = Ok env /\
    success env = true /\ found env = Some true /\
    data env = Some (PyDict d) /\
    (forall k, is_Some (d !! k) <-> k = "news") /\
    match company_news c symbol start_date end_date with
    | ApiReturns (PyList items) =>
        exists kept,
          d !! "news" = Some (PyList kept) /\
          kept `prefix_of` items /\
          length kept = Nat.min 10 (length items) /\
          ((length items <= 10)%nat -> kept = items)
    | call => d !! "news" = Some (outcome_value call)
    end.
Proof.
  cbv [_get_sentiment_and_news client_attr _safe_api_call client
       mbind result_bind rbind].
  assert (Hkeys : forall (v : pyval) (k : string),
             is_Some (<[ "news" := v ]> (∅ : gmap string pyval) !! k) <-> k = "news").
  { intros v k. destruct (decide ("news" = k)) as [<-|Hne].
    - rewrite lookup_insert_eq. split; [reflexivity | intros _; eexists; reflexivity].
    - rewrite lookup_insert_ne, lookup_empty by assumption.
      split; [intros [x Hx]; discriminate | intros ->; congruence]. }
  destruct (company_news c symbol start_date end_date) as [msg|v];
    [|destruct v]; cbn [outcome_value];
    eexists _, _;
    (split; [reflexivity|]);
    (split; [reflexivity|]);
    (split; [unfold _format_response; cbn [is_none found];
             rewrite truthy_insert; reflexivity|]);
    (split; [reflexivity|]);
    (split; [apply Hkeys|]);
    try (apply lookup_insert_eq).
  exists (take 10 l). split; [apply lookup_insert_eq|].
  split; [apply prefix_take|].
  split; [apply length_take|].
  intros Hle. apply take_ge. exact Hle.
Qed.

Lemma real_categories_data (c : Client) (now : Clock)
    (symbol start_date end_date : string) :
  let self := mkService (Some c) in
  let answers (r : Result (Envelope pyval)) :=
    exists e d, r = Ok e /\ success e = true /\ data e = Some (PyDict d) in
  answers (_get_company_profile self now symbol) /\
  answers (_get_market_data self now symbol start_date end_date) /\
  answers (_get_financials self now symbol start_date end_date) /\
  answers (_get_estimates_and_analysis self now symbol start_date end_date) /\
  answers (_get_sentiment_and_news self now symbol start_date end_date).
Proof.
  cbv zeta. repeat split; eexists _, _; repeat split; reflexivity.
Qed.

(** X4.  On a service with a client the aggregated report always succeeds
    and always has all five categories, however many upstream calls failed:
    the merged data has exactly the keys company_profile, market_data,
    financials, analysis and sentiment, each holding the data of that
    category's own answer for the same symbol and period. *)
Theorem X4_report_has_all_five_categories
    (c : Client) (now : Clock) (symbol start_date end_date : string) :
  let self := mkService (Some c) in
  exists env merged r1 r2 r3 r4 r5,
    _get_all_stock_info self now symbol start_date end_date = Ok env /\
    success env = true /\ found env = Some true /\
    data env = Some (PyDict merged) /\
    _get_company_profile self now symbol = Ok r1 /\
    _get_market_data self now symbol start_date end_date = Ok r2 /\
    _get_financials self now symbol start_date end_date = Ok r3 /\
    _get_estimates_and_analysis self now symbol start_date end_date = Ok r4 /\
    _get_sentiment_and_news self now symbol start_date end_date = Ok r5 /\
    merged !! "company_profile" = data r1 /\
    merged !! "market_data" = data r2 /\
    merged !! "financials" = data r3 /\
    merged !! "analysis" = data r4 /\
    merged !! "sentiment" = data r5 /\
    (forall k, is_Some (merged !! k) <-> k ∈ CATEGORY_KEYS).
Proof.
  cbv zeta.
  destruct (real_categories_data c now symbol start_date end_date)
    as ((e1 & d1 & H1 & S1 & D1) & (e2 & d2 & H2 & S2 & D2) &
        (e3 & d3 & H3 & S3 & D3) & (e4 & d4 & H4 & S4 & D4) &
        (e5 & d5 & H5 & S5 & D5)).
  unfold _get_all_stock_info, get_all_stock_info_with, methods.
  cbn [fetch_company_profile fetch_market_data fetch_financials
       fetch_estimates_and_analysis fetch_sentiment_and_news].
  rewrite H1, H2, H3, H4, H5.
  cbn [mbind result_bind rbind].
  eexists _, _, e1, e2, e3, e4, e5.
  split; [reflexivity|].
  split; [reflexivity|].
  split.
  { unfold _format_response. cbn [is_none found].
    unfold merge_category at 1. rewrite S5, truthy_insert. reflexivity. }
  split; [reflexivity|].
  do 5 (split; [reflexivity|]).
  assert (G : forall e d, data e = Some (PyDict d) -> Some (get_data e) = data e).
  { intros e d Hd. unfold get_data. rewrite Hd. reflexivity. }
  assert (L : forall k, merge_category "sentiment" e5
             (merge_category "analysis" e4
                (merge_category "financials" e3
                   (merge_category "market_data" e2
                      (merge_category "company_profile" e1 ∅)))) !! k =
            if decide ("sentiment" = k) then data e5
            else if decide ("analysis" = k) then data e4
            else if decide ("financials" = k) then data e3
            else if decide ("market_data" = k) then data e2
            else if decide ("company_profile" = k) then data e1
            else None).
  { intros k. rewrite !lookup_merge_category, S1, S2, S3, S4, S5, lookup_empty.
    rewrite (G _ _ D1), (G _ _ D2), (G _ _ D3), (G _ _ D4), (G _ _ D5).
    reflexivity. }
  do 5 (split; [rewrite L; repeat case_decide; try congruence; reflexivity|]).
  intros k. rewrite L. unfold CATEGORY_KEYS.
  rewrite !elem_of_cons, elem_of_nil, D1, D2, D3, D4, D5.
  repeat case_decide; subst;
    (split; [intros [x Hx]; try discriminate; tauto
            | intros Hk; try (eexists; reflexivity); exfalso; intuition congruence]).
Qed.

(** X5.  On a service whose client could not be constructed, no operation
    answers with an envelope: each of them raises [AttributeError], because
    the endpoint is read off the missing client before the guarded call is
    reached. *)
Theorem X5_without_client_every_operation_raises
    (ep : Endpoints) (now : Clock)
    (symbol start_date end_date resolution transcript_id : string) :
  let self := mkService None in
  raises_attribute_error (_get_company_profile self now symbol) /\
  raises_attribute_error (_get_market_data self now symbol start_date end_date) /\
  raises_attribute_error (_get_financials self now symbol start_date end_date) /\
  raises_attribute_error
    (_get_estimates_and_analysis self now symbol start_date end_date) /\
  raises_attribute_error
    (_get_sentiment_and_news self now symbol start_date end_date) /\
  raises_attribute_error
    (_get_all_stock_info self now symbol start_date end_date) /\
  raises_attribute_error (_fetch_transcripts self now transcript_id) /\
  raises_attribute_error (_fetch_transcripts_list self now symbol) /\
  raises_attribute_error (_fetch_company_executives self now symbol) /\
  raises_attribute_error
    (_fetch_sec_filings self ep now symbol start_date end_date) /\
  raises_attribute_error
    (_fetch_insider_transactions self ep now symbol start_date end_date) /\
  raises_attribute_error
    (_fetch_institutional_ownership self ep now symbol start_date end_date) /\
  raises_attribute_error (_fetch_fund_ownership self ep now symbol) /\
  raises_attribute_error (_fetch_news_sentiment self ep now symbol) /\
  raises_attribute_error (_fetch_social_sentiment self ep now symbol) /\
  raises_attribute_error
    (_fetch_insider_sentiment self ep now symbol start_date end_date) /\
  raises_attribute_error
    (_fetch_upgrade_downgrade self ep now symbol start_date end_date) /\
  raises_attribute_error
    (_fetch_pattern_recognition self ep now symbol resolution) /\
  raises_attribute_error
    (_fetch_support_resistance self ep now symbol resolution) /\
  raises_attribute_error
    (_fetch_aggregate_indicator self ep now symbol resolution).
Proof.
  cbv zeta. unfold raises_attribute_error.
  repeat split; eexists; reflexivity.
Qed.

End FinnhubMore.

(* ===================================================================== *)
(** ** finnhub_service.py: timestamps in calendar order                   *)
(* ===================================================================== *)

Section DatesMore.
Import Finnhub DateSpec CalendarSpec.
Context `{Str : StrMethods}.

Lemma days_before_year_succ (y : Z) :
  1 <= y ->
  _days_before_year (y + 1)
    = _days_before_year y + 365 + (if _is_leap y then 1 else 0).
Proof.
  intros Hy. unfold _days_before_year.
  replace (y + 1 - 1) with y by lia.
  pose proof (is_leap_spec y) as Hl.
  destruct (_is_leap y);
    [assert (Hl' : y mod 4 = 0 /\ (y mod 100 <> 0 \/ y mod 400 = 0))
       by (apply Hl; reflexivity)
    |assert (Hl' : ~ (y mod 4 = 0 /\ (y mod 100 <> 0 \/ y mod 400 = 0)))
       by (intros C; apply Hl in C; discriminate)];
    clear Hl; cbv zeta; Z.div_mod_to_equations; lia.
Qed.

Lemma days_before_year_mono (a b : Z) :
  1 <= a <= b -> _days_before_year a <= _days_before_year b.
Proof.
  intros H. unfold _days_before_year. cbv zeta.
  Z.div_mod_to_equations. lia.
Qed.

Lemma month_cases (m : Z) :
  1 <= m <= 12 ->
  m = 1 \/ m = 2 \/ m = 3 \/ m = 4 \/ m = 5 \/ m = 6 \/ m = 7
  \/ m = 8 \/ m = 9 \/ m = 10 \/ m = 11 \/ m = 12.
Proof. lia. Qed.

(** A day of a year lies within that year's days. *)
Lemma ymd2ord_within_year (y m d : Z) :
  valid_date y m d ->
  _days_before_year y + 1 <= _ymd2ord y m d <= _days_before_year (y + 1).
Proof.
  intros (Hy & Hm & Hd).
  rewrite days_before_year_succ by lia.
  unfold _ymd2ord, _days_before_month, _days_in_month in *.
  destruct (_is_leap y);
    destruct (month_cases m Hm) as [E|[E|[E|[E|[E|[E|[E|[E|[E|[E|[E|E]]]]]]]]]]];
    subst m; vm_compute (_DAYS_BEFORE_MONTH _);
    vm_compute (_DAYS_IN_MONTH _) in Hd;
    cbn -[Z.add Z.sub Z.mul Z.div _days_before_year] in *; lia.
Qed.

Lemma ymd2ord_month_lt (y m1 d1 m2 d2 : Z) :
  valid_date y m1 d1 -> valid_date y m2 d2 -> m1 < m2 ->
  _ymd2ord y m1 d1 < _ymd2ord y m2 d2.
Proof.
  intros (Hy & Hm1 & Hd1) (_ & Hm2 & Hd2) Hlt.
  unfold _ymd2ord, _days_before_month, _days_in_month in *.
  destruct (_is_leap y);
    destruct (month_cases m1 Hm1) as [E|[E|[E|[E|[E|[E|[E|[E|[E|[E|[E|E]]]]]]]]]]];
    subst m1; vm_compute (_DAYS_IN_MONTH _) in Hd1;
    vm_compute (_DAYS_BEFORE_MONTH _);
    cbn -[Z.add Z.sub Z.mul Z.div _days_before_year _DAYS_BEFORE_MONTH] in Hd1 |- *;
    destruct (month_cases m2 Hm2) as [F|[F|[F|[F|[F|[F|[F|[F|[F|[F|[F|F]]]]]]]]]]];
    subst m2; try lia;
    vm_compute (_DAYS_BEFORE_MONTH _);
    cbn -[Z.add Z.sub Z.mul Z.div _days_before_year] in *; lia.
Qed.

(** The day count follows the calendar. *)
Lemma ymd2ord_earlier (y1 m1 d1 y2 m2 d2 : Z) :
  valid_date y1 m1 d1 -> valid_date y2 m2 d2 ->
  earlier (y1, m1, d1) (y2, m2, d2) ->
  _ymd2ord y1 m1 d1 < _ymd2ord y2 m2 d2.
Proof.
  intros V1 V2 [Hy|[-> [Hm|[-> Hd]]]].
  - pose proof (ymd2ord_within_year _ _ _ V1) as [_ H1].
    pose proof (ymd2ord_within_year _ _ _ V2) as [H2 _].
    destruct V1 as (Hy1 & _). destruct V2 as (Hy2 & _).
    pose proof (days_before_year_mono (y1 + 1) y2). lia.
  - apply ymd2ord_month_lt; assumption.
  - unfold _ymd2ord. lia.
Qed.

(** X20.  The timestamps of accepted dates follow the calendar: for every
    accepted date string the end-of-day timestamp is the midnight one plus
    86399 seconds, and when one accepted date is earlier than another, the
    end of the earlier day is before the midnight of the later one.  So a
    period from a start date to a later end date is never empty or
    reversed. *)
Theorem X20_timestamps_follow_the_calendar
    (s1 s2 : string) (y1 m1 d1 y2 m2 d2 : Z) :
  strptime_Ymd s1 = Ok (y1, m1, d1) ->
  strptime_Ymd s2 = Ok (y2, m2, d2) ->
  earlier (y1, m1, d1) (y2, m2, d2) ->
  exists t1 e1 t2,
    _date_to_timestamp s1 false = Ok t1 /\
    _date_to_timestamp s1 true = Ok e1 /\
    _date_to_timestamp s2 false = Ok t2 /\
    e1 = t1 + 86399 /\ e1 < t2.
Proof.
  intros H1 H2 Hlt.
  pose proof (ymd2ord_earlier _ _ _ _ _ _
                (strptime_valid _ _ _ _ H1) (strptime_valid _ _ _ _ H2) Hlt).
  unfold _date_to_timestamp. rewrite H1, H2.
  eexists _, _, _. repeat (split; [reflexivity|]).
  unfold utc_timestamp. lia.
Qed.

(** X21.  The value 0 is ambiguous: the midnight timestamp is 0 exactly
    when the string is rejected or is accepted as 1 January 1970.  No other
    accepted date gives 0, and dates before 1970 give negative
    timestamps. *)
Theorem X21_zero_is_rejected_or_epoch (s : string) :
  (_date_to_timestamp s false = Ok 0 <->
   (exists e, strptime_Ymd s = Raise e) \/ strptime_Ymd s = Ok (1970, 1, 1)) /\
  (forall y m d, strptime_Ymd s = Ok (y, m, d) -> y < 1970 ->
     exists t, _date_to_timestamp s false = Ok t /\ t < 0).
Proof.
  assert (Hepoch : valid_date 1970 1 1)
    by (repeat split; vm_compute; intros C; discriminate C).
  split.
  - unfold _date_to_timestamp.
    destruct (strptime_Ymd s) as [[[y m] d]|e] eqn:Hs.
    + pose proof (strptime_valid _ _ _ _ Hs) as V.
      unfold utc_timestamp. split.
      * intros [= H0]. right.
        assert (Hord : _ymd2ord y m d = _ymd2ord 1970 1 1) by lia.
        destruct V as (Hy & Hm & Hd).
        destruct (Z.lt_trichotomy y 1970) as [L|[E|G]].
        -- pose proof (ymd2ord_earlier y m d 1970 1 1
                         (conj Hy (conj Hm Hd)) Hepoch (or_introl L)). lia.
        -- subst y.
           destruct (Z.lt_trichotomy m 1) as [L|[E|G]]; [lia| |].
           ++ subst m.
              destruct (Z.lt_trichotomy d 1) as [L|[E|G]]; [lia| |].
              ** subst d. reflexivity.
              ** pose proof (ymd2ord_earlier 1970 1 1 1970 1 d Hepoch
                               (conj Hy (conj Hm Hd))
                               (or_intror (conj eq_refl
                                  (or_intror (conj eq_refl G))))). lia.
           ++ pose proof (ymd2ord_earlier 1970 1 1 1970 m d Hepoch
                            (conj Hy (conj Hm Hd))
                            (or_intror (conj eq_refl (or_introl G)))). lia.
        -- pose proof (ymd2ord_earlier 1970 1 1 y m d Hepoch
                         (conj Hy (conj Hm Hd)) (or_introl G)). lia.
      * intros [(e & [=])|[= -> -> ->]]. reflexivity.
    + destruct (strptime_raises_value_error _ _ Hs) as (msg & ->).
      split; [eauto|reflexivity].
  - intros y m d Hs Hy.
    pose proof (strptime_valid _ _ _ _ Hs) as V.
    pose proof (ymd2ord_earlier y m d 1970 1 1 V Hepoch (or_introl Hy)).
    unfold _date_to_timestamp. rewrite Hs.
    eexists. split; [reflexivity|]. unfold utc_timestamp. lia.
Qed.

End DatesMore.

Section DatesMoreExamples.
Import Finnhub DateSpec CalendarSpec.
#[local] Existing Instance ascii_methods.

Lemma X20_timestamps_witness :
  exists t1 e1 t2,
    _date_to_timestamp "2024-02-29" false = Ok t1 /\
    _date_to_timestamp "2024-02-29" true = Ok e1 /\
    _date_to_timestamp "2024-3-1" false = Ok t2 /\
    e1 = t1 + 86399 /\ e1 < t2.
Proof.
  apply (X20_timestamps_follow_the_calendar (Str := ascii_methods)
           "2024-02-29" "2024-3-1"
           2024 2 29 2024 3 1
           ltac:(vm_compute; reflexivity) ltac:(vm_compute; reflexivity)).
  right. split; [reflexivity|]. left. lia.
Defined.

End DatesMoreExamples.

(* ===================================================================== *)
(** ** tushare_realtime_service.py: the directory cache                   *)
(* ===================================================================== *)

Section CacheMore.
Import Tushare DirectorySpec CacheSpec.
Local Open Scope m_scope.
Context `{Str : StrMethods}.


(** X7.  The cache at work across time: after a directory fetch that went
    upstream, got rows and stored them, a fetch less than 24 hours later
    returns those rows from the cache and changes nothing, while a fetch at
    or after 24 hours goes upstream again, so that the trace then shows two
    list-all-symbols calls. *)
Theorem X7_fetched_directory_served_until_expiry
    (api : ProApi) (tsm : option TsModule) (env env' : Env) (st : St)
    (r : DirectoryEntry) (rows : list DirectoryEntry) :
  ~ usable_cached_value env st ->
  stock_basic api = Returns (Some (r :: rows)) ->
  cache_writable env = true ->
  let self := mkService (Some api) tsm in
  let st1 := (_get_stock_basic self env st).2 in
  ((time_now env' - time_now env < WINDOW)%Q ->
     _get_stock_basic self env' st1 = (Ok (Some (Rows (r :: rows))), st1)) /\
  (~ (time_now env' - time_now env < WINDOW)%Q ->
     calls (_get_stock_basic self env' st1).2
       = calls st ++ [CallStockBasic; CallStockBasic]).
Proof.
  intros Hmiss Hup Hw. cbv zeta.
  destruct (get_stock_basic_cases api tsm env st)
    as [(rows0 & Hf0 & _)|[(f0 & Hf0 & _)|(_ & ->)]];
    [destruct Hmiss; left; eauto|destruct Hmiss; right; eauto|].
  assert (Hdisk : disk (fetch_outcome api env st).2 !! DIRECTORY_KEY
                  = Some (Stored (Some (time_now env)) (JRows (r :: rows)))).
  { unfold fetch_outcome. rewrite Hup, Hw. cbn [snd disk].
    apply lookup_insert_eq. }
  assert (Hcalls : calls (fetch_outcome api env st).2 = calls st ++ [CallStockBasic])
    by apply fetch_outcome_calls.
  destruct (get_stock_basic_cases api tsm env' (fetch_outcome api env st).2)
    as [(rows1 & Hf1 & ->)|[(f1 & Hf1 & _)|(Hnone & ->)]].
  - split.
    + intros _. destruct Hf1 as (t1 & Hd1 & _). rewrite Hdisk in Hd1.
      injection Hd1 as <- <-. reflexivity.
    + intros Hage. destruct Hf1 as (t1 & Hd1 & _ & Hlt). rewrite Hdisk in Hd1.
      injection Hd1 as <- <-. destruct (Hage Hlt).
  - destruct Hf1 as (t1 & Hd1 & _). rewrite Hdisk in Hd1. discriminate Hd1.
  - split.
    + intros Hage. exfalso. apply Hnone. left. exists (r :: rows).
      exists (Some (time_now env)). split; [exact Hdisk|].
      split; [discriminate|exact Hage].
    + intros _. rewrite fetch_outcome_calls, Hcalls, <- app_assoc. reflexivity.
Qed.



















End CacheMore.

Section CacheMoreExamples.
Import Tushare DirectorySpec CacheSpec.
Local Open Scope m_scope.
#[local] Existing Instance ascii_methods.

Lemma X7_fetched_directory_witness :
  _get_stock_basic (mkService (Some api_up) None) env0
    (_get_stock_basic (mkService (Some api_up) None) env0 (mkSt stale_disk [])).2
  = (Ok (Some (Rows [pudong; pingan])),
     (_get_stock_basic (mkService (Some api_up) None) env0 (mkSt stale_disk [])).2)
  /\
  calls (_get_stock_basic (mkService (Some api_up) None) (later 86400 env0)
           (_get_stock_basic (mkService (Some api_up) None) env0
              (mkSt stale_disk [])).2).2
  = [CallStockBasic; CallStockBasic].
Proof.
  split.
  - apply (proj1 (X7_fetched_directory_served_until_expiry
                    api_up None env0 env0 (mkSt stale_disk []) pudong [pingan]
                    stale_disk_not_usable eq_refl eq_refl)).
    reflexivity.
  - apply (proj2 (X7_fetched_directory_served_until_expiry
                    api_up None env0 (later 86400 env0) (mkSt stale_disk [])
                    pudong [pingan] stale_disk_not_usable eq_refl eq_refl)).
    intros Hlt. vm_compute in Hlt. discriminate Hlt.
Defined.



End CacheMoreExamples.

(* ===================================================================== *)
(** ** tushare_realtime_service.py: look-ups in the directory             *)
(* ===================================================================== *)

Section ResolveMore.
Import Tushare DirectorySpec ResolveSpec.
Local Open Scope m_scope.

Section Fold.
Variables key val : DirectoryEntry -> string.
Variable df : list DirectoryEntry.






End Fold.







End ResolveMore.

(* ===================================================================== *)
(** ** tushare_realtime_service.py: requests by name                      *)
(* ===================================================================== *)

Section ByNameMore.
Import Tushare DirectorySpec RequestSpec EnvelopeSpec ByNameSpec.
Local Open Scope m_scope.
Context `{Str : StrMethods}.

Lemma split_pieces_no_sep (sep : ascii) (s p : string) :
  In p (split sep s) -> contains_char sep p = false.
Proof.
  revert p. induction s as [|c s IH]; intros p; cbn.
  - intros [<-|[]]. reflexivity.
  - destruct (Ascii.eqb c sep) eqn:E.
    + intros [<-|H]; [reflexivity|apply IH; exact H].
    + destruct (split sep s) as [|w ws] eqn:Es.
      * intros [<-|[]]. cbn. rewrite E. reflexivity.
      * intros [<-|H].
        -- cbn. rewrite E. apply IH. left. reflexivity.
        -- apply IH. right. exact H.
Qed.

Lemma contains_char_app (sep : ascii) (a b : string) :
  contains_char sep (a +:+ b) = contains_char sep a || contains_char sep b.
Proof.
  induction a as [|c a IH]; [reflexivity|].
  change (String c a +:+ b) with (String c (a +:+ b)).
  cbn [contains_char]. rewrite IH, orb_assoc. reflexivity.
Qed.

Lemma strip_empty : strip "" = "".
Proof. rewrite strip_ascii_text by reflexivity. reflexivity. Qed.

(** [strip] returns a slice of its argument, so it brings in no comma. *)
Lemma strip_no_sep (sep : ascii) (s : string) :
  contains_char sep s = false -> contains_char sep (strip s) = false.
Proof.
  intros H. destruct (strip_slice s) as (a & b & E).
  rewrite E, !contains_char_app in H.
  apply orb_false_iff in H as [_ H]. apply orb_false_iff in H as [H _].
  exact H.
Qed.

Lemma names_list_of_proper (stock_names n : string) :
  In n (names_list_of stock_names) ->
  n <> "" /\ strip n = n /\ contains_char "," n = false.
Proof.
  unfold names_list_of. intros H.
  apply in_map_iff in H as (p & <- & Hp).
  apply list_elem_of_In, list_elem_of_filter in Hp as [Hne Hp].
  apply list_elem_of_In in Hp.
  split; [|split].
  - intros E. rewrite E in Hne. cbn in Hne. exact Hne.
  - apply strip_again.
  - apply strip_no_sep. eapply split_pieces_no_sep. exact Hp.
Qed.

(** X12.  The names a request by name works on are clean: each is not
    empty, has no surrounding whitespace and no comma.  Writing them back
    with commas and reading the result again gives the same names, so the
    reading of the comma-separated argument is a normal form. *)
Theorem X12_requested_names_are_normalised (stock_names : string) :
  (forall n, In n (names_list_of stock_names) ->
     n <> "" /\ strip n = n /\ contains_char "," n = false) /\
  names_list_of (join "," (names_list_of stock_names))
    = names_list_of stock_names.
Proof.
  split; [apply names_list_of_proper|].
  destruct (names_list_of stock_names) as [|n l] eqn:E.
  { unfold names_list_of. cbn. rewrite strip_empty. reflexivity. }
  rewrite names_list_of_join.
  - rewrite <- E. clear E.
    assert (H : forall m, In m (names_list_of stock_names) -> strip m = m)
      by (intros m Hm; apply (names_list_of_proper _ _ Hm)).
    induction (names_list_of stock_names) as [|m ms IH]; [reflexivity|].
    cbn. rewrite (H m (or_introl eq_refl)). f_equal.
    apply IH. intros m' Hm'. apply H. right. exact Hm'.
  - discriminate.
  - intros m Hm. rewrite <- E in Hm.
    destruct (names_list_of_proper _ _ Hm) as (Hne & Hs & Hc).
    split; [exact Hc|]. rewrite Hs. exact Hne.
Qed.





















(** X22.  Without a token (no API object) nothing can be asked by name:
    both look-ups return an empty map, and the minute requests and every
    request by name are answered with a failure envelope, without any
    upstream call and with the cache untouched, also when the crawler
    module is available. *)
Theorem X22_without_token_requests_by_name_fail
    (tsm : option TsModule) (env : Env) (st : St) (names : list string)
    (text freq src : string) :
  let self := mkService None tsm in
  _get_code_by_name self env names st = (Ok [], st) /\
  _get_name_by_code self env names st = (Ok [], st) /\
  refused (_get_realtime_minute self env text freq st) st /\
  refused (_get_minute_by_name self env text freq st) st /\
  refused (get_realtime_by_name self env text st) st /\
  refused (get_realtime_tick_by_name self env text src st) st.
Proof.
  cbv zeta. unfold refused.
  split; [reflexivity|]. split; [reflexivity|].
  split; [eexists; reflexivity|]. split; [eexists; reflexivity|].
  split.
  - unfold get_realtime_by_name.
    destruct (names_list_of text) as [|n l]; [eexists; reflexivity|].
    destruct (50 <? length (n :: l))%nat; eexists; reflexivity.
  - unfold get_realtime_tick_by_name.
    destruct (String.eqb text ""); eexists; reflexivity.
Qed.


End ByNameMore.

Section ByNameMoreExamples.
Import Tushare DirectorySpec RequestSpec EnvelopeSpec ByNameSpec.
Local Open Scope m_scope.
#[local] Existing Instance ascii_methods.






End ByNameMoreExamples.

(* ===================================================================== *)
(** ** tushare_realtime_service.py: the ranking and the market snapshot   *)
(* ===================================================================== *)

Section RankingMore.
Import Tushare RankingSpec EnvelopeSpec.
Local Open Scope m_scope.

Lemma top_response_frame (env : Env) (src : string) (top_n : Z)
    (sort_by : string) (ascending : bool)
    (records : list (gmap string cell)) (e : Response) :
  top_response env src top_n sort_by ascending records = Ok e ->
  exists sorted md,
    sorted ≡ₚ rows (DataFrame records) /\
    data e = Some (rows (head top_n
                          (mkFrame (columns (DataFrame records)) sorted))) /\
    metadata e = Some md /\
    md !! "total_stocks" = Some (py_count sorted).
Proof.
  unfold top_response.
  destruct (bool_decide (sort_by ∈ columns (DataFrame records))).
  - destruct (comparable (present_keys sort_by (DataFrame records))) eqn:Hc.
    + destruct (sort_values_ok sort_by ascending _ Hc)
        as (sorted & Hsv & Hperm & _).
      rewrite Hsv. cbn [mbind result_bind rbind]. intros [= <-].
      exists sorted. eexists. split; [exact Hperm|].
      split; [reflexivity|]. split; [reflexivity|].
      lookup_key. reflexivity.
    + destruct (sort_values_raises sort_by ascending _ Hc) as (ex & Hsv).
      rewrite Hsv. discriminate.
  - cbn [mbind result_bind rbind]. intros [= <-].
    exists (rows (DataFrame records)). eexists. split; [reflexivity|].
    split; [reflexivity|].
    split; [reflexivity|]. lookup_key. reflexivity.
Qed.

Lemma head_rows (n : Z) (cols : gset string) (l : list (gmap string cell)) :
  exists k, rows (head n (mkFrame cols l)) = take k l /\
            (Z.of_nat (length l) <= n -> (length l <= k)%nat).
Proof.
  unfold head. cbn [rows columns].
  eexists. split; [reflexivity|].
  intros H. destruct (Z.leb_spec 0 n); lia.
Qed.

Lemma frame_row_origin (records : list (gmap string cell))
    (r : gmap string cell) :
  r ∈ rows (DataFrame records) ->
  exists r0, r0 ∈ records /\
    (forall k v, r0 !! k = Some v -> r !! k = Some v) /\
    (forall k, r0 !! k = None -> r !! k = None \/ r !! k = Some CNull).
Proof.
  unfold DataFrame. cbn [rows]. intros H.
  apply list_elem_of_In, in_map_iff in H as (r0 & <- & Hr0).
  exists r0. split; [apply list_elem_of_In; exact Hr0|]. split.
  - intros k v Hk. apply lookup_union_Some_l. exact Hk.
  - intros k Hk. rewrite lookup_union_r by exact Hk.
    destruct (gset_to_gmap CNull (⋃ map dom records) !! k) as [c|] eqn:E;
      [|left; reflexivity].
    apply lookup_gset_to_gmap_Some in E as [_ <-]. right. reflexivity.
Qed.

(** X15.  A ranking of a market snapshot that has records invents no
    record and no text.  When it succeeds, [metadata["total_stocks"]] is the
    size of the whole snapshot; it returns no more records than the snapshot
    has, and as many when [top_n] is at least that size; and every record it
    returns comes from a record of the snapshot: a text of that record is
    there unchanged, a number is a number (its value as pandas stores it in
    the column, which is not claimed to be the same), a null is a null, and
    a column that record lacks is absent or null. *)
Theorem X15_ranking_returns_snapshot_records
    (self : TushareRealtimeService) (env : Env) (src : string) (top_n : Z)
    (sort_by : string) (ascending : bool) (st st1 : St) (snapshot : Response) :
  _get_realtime_list self env src st = (Ok snapshot, st1) ->
  success snapshot = true ->
  records_of snapshot <> [] ->
  exists e,
    get_realtime_list_top self env src top_n sort_by ascending st = (Ok e, st1) /\
    (success e = true ->
     (exists md, metadata e = Some md /\
        md !! "total_stocks" = Some (py_count (records_of snapshot))) /\
     (length (records_of e) <= length (records_of snapshot))%nat /\
     (Z.of_nat (length (records_of snapshot)) <= top_n ->
        length (records_of e) = length (records_of snapshot)) /\
     (forall r, r ∈ records_of e ->
        exists r0, r0 ∈ records_of snapshot /\
          (forall k t, r0 !! k = Some (CStr t) -> r !! k = Some (CStr t)) /\
          (forall k q, r0 !! k = Some (CNum q) ->
             exists q', r !! k = Some (CNum q')) /\
          (forall k, r0 !! k = Some CNull -> r !! k = Some CNull) /\
          (forall k, r0 !! k = None -> r !! k = None \/ r !! k = Some CNull))).
Proof.
  intros Hsnap Hsucc Hne.
  rewrite (realtime_list_top_unfold _ _ _ top_n sort_by ascending _ _ _ Hsnap).
  rewrite Hsucc. unfold records_of in *.
  destruct (data snapshot) as [[|r0 records]|]; cbn [default] in *;
    unfold id in *; [congruence| |congruence].
  destruct (top_response env src top_n sort_by ascending (r0 :: records))
    as [e|ex] eqn:Ht.
  - exists e. split; [reflexivity|]. intros _.
    destruct (top_response_frame _ _ _ _ _ _ _ Ht)
      as (sorted & md & Hperm & Hd & Hmd & Htotal).
    destruct (head_rows top_n (columns (DataFrame (r0 :: records))) sorted)
      as (k & Hk & Hall).
    assert (Hlen : length sorted = length (r0 :: records)).
    { rewrite Hperm. unfold DataFrame. cbn [rows]. apply length_map. }
    rewrite Hd, Hk. cbn [default].
    split; [|split; [|split]].
    + exists md. split; [exact Hmd|]. rewrite Htotal.
      unfold py_count. rewrite Hlen. reflexivity.
    + rewrite length_take, <- Hlen. lia.
    + intros Hn. rewrite take_ge by (apply Hall; rewrite Hlen; exact Hn).
      exact Hlen.
    + intros r Hr.
      destruct (frame_row_origin (r0 :: records) r) as (r1 & Hr1 & Hsame & Hmiss).
      { rewrite <- Hperm. exact (subseteq_take k sorted r Hr). }
      exists r1. split; [exact Hr1|].
      split; [intros k0 t Hk0; apply Hsame; exact Hk0|].
      split; [intros k0 q Hk0; exists q; apply Hsame; exact Hk0|].
      split; [intros k0 Hk0; apply Hsame; exact Hk0|exact Hmiss].
  - eexists. split; [reflexivity|]. intros [=].
Qed.

Lemma X15_ranking_witness :
  exists e,
    get_realtime_list_top (mkService None (Some (crawler market))) env1
      "dc" 10 "pct_change" false st0
      = (Ok e, mkSt ∅ [CallRealtimeList "dc"]) /\
    (success e = true ->
     (exists md, metadata e = Some md /\
        md !! "total_stocks" = Some (PyNum 4)) /\
     (length (records_of e) <= 4)%nat).
Proof.
  destruct (X15_ranking_returns_snapshot_records
              (mkService None (Some (crawler market))) env1
              "dc" 10 "pct_change" false st0 _ _ eq_refl eq_refl)
    as (e & He & H).
  - intros E. apply (f_equal length) in E. vm_compute in E. discriminate E.
  - exists e. split; [exact He|]. intros Hs.
    destruct (H Hs) as (Hmd & Hlen & _). split; [exact Hmd|exact Hlen].
Defined.

End RankingMore.

(* ===================================================================== *)
(** ** tushare_realtime_service.py: minute bars                           *)
(* ===================================================================== *)

Section MinuteMore.
Import Tushare DirectorySpec ResolveSpec MinuteSpec ByNameSpec.
Local Open Scope m_scope.
Context `{Str : StrMethods}.





End MinuteMore.

Section MinuteMoreExamples.
Import Tushare DirectorySpec ResolveSpec MinuteSpec ByNameSpec.
Local Open Scope m_scope.
#[local] Existing Instance ascii_methods.



End MinuteMoreExamples.
